(* ===== verification/_CoqProject ===== *)
-Q . S2P
Spec2Rocq.v
Js.v
Page.v
Flow.v
EventLoop.v
Invariants.v
Scenarios.v
Termination.v
Refinement.v
Providers.v
