(* ===== verification/Spec2Rocq.v ===== *)
(** * A verification development of the wallet login widget of the
      inception-humanprotocol adapter

    The program is one browser script,
    [src/inception-humanprotocol-adapter/src/main/java/io/github/reckart/
    inception/humanprotocol/page/AcceptInvitePage.js] (below: AcceptInvitePage.js).
    It lets a user connect a wallet through the Web3Modal dialog, reads the
    account, asks the wallet for a personal signature over a server-supplied
    challenge and puts address and signature into the login form.

    ** The program's parts and how they interact

    - Module-level state (lines 26-38): [web3Modal], [provider],
      [selectedAccount]; plus the page's DOM fields the script reads and
      writes (#field-signature, .btn-login, #waiting-for-signature-msg,
      .username, #field-signature-request, #btn-switch-account).
    - [init] (40-58): resets the form and builds the Web3Modal instance.
    - [fetchAccountData] (60-74): awaits [getAccounts], stores the first
      account, resets the form and starts a [personal.sign] request whose
      promise is continued by [onSigned] / [onSignatureAborted] (76-88).
    - [onConnect] (94-119): closes a held provider that has [close], awaits
      [clearCachedProvider], opens the dialog in a try/catch, subscribes to
      "accountsChanged" and awaits [fetchAccountData].
    - the load handler (124-128): [init()], an un-awaited [onConnect()],
      then registers [onConnect] as the click handler of the switch link.

    The functions are [async]: each [await] suspends the function and gives
    control back to the browser's event loop, so several activations of
    [onConnect] and [fetchAccountData] can be suspended at once and resumed
    in any order the wallet chooses.  The development models exactly this.

    ** Files

    - [Spec2Rocq.v] (this file): the prelude.  The scope [page_scope] of
      the development's notations ([R ^*] here, [w =[ e ]=> w'] for one
      event in EventLoop.v), the hint database [page],
      the rewrite database [page_rw], the reflexive-transitive closure [star] of a step
      relation with its rule-induction lemma, and sums over task pools.
    - [Js.v]: the JavaScript runtime fragment the script relies on.  A state
      and exception monad [JS S A], an instance of stdpp's [MRet]/[MBind]
      (notation [x ← m; k], [m ;; k]), [js_throw], [js_try], [js_async]
      for code whose promise nobody awaits, and promise settlements
      [Fulfilled v] / [Rejected].
    - [Page.v]: the DOM fields ([dom_state]), the module-level state and the
      environment's provider objects ([world]), the DOM and global setters,
      and the three synchronous functions [init], [onSigned] and
      [onSignatureAborted], as [JS world unit] programs.
    - [Flow.v]: the asynchronous functions [onConnect] and
      [fetchAccountData].  Each is cut at its [await]s.  The code before
      the first [await] is a [JS] program ([onConnect], [fetchAccountData],
      [openDialog]).  Each suspended activation is a [task] in the pending
      pool ([TConnectClose], [TConnectClear], [TConnectDialog],
      [TFetchAccounts], [TSign]).  [resume] runs the code that follows the
      [await] once the awaited promise settles.
    - [EventLoop.v]: the browser's events ([EvLoad], [EvClickSwitch],
      [EvAccountsChanged], [EvSettle]), the executable [dispatch] of one
      event, [run] of a trace, the initial page [initial_world] and the
      inductive [reachable] set.
    - [Invariants.v]: the invariants of the form that hold in every
      reachable state, proved by rule induction on [reachable].
    - [Scenarios.v]: whole runs of the widget as concrete and symbolic traces.
      The happy path, rejection, switching accounts, and the races the
      interleavings allow.
    - [Termination.v]: every settlement decreases a measure of the pending
      pool, and the pool can always be drained.
    - [Refinement.v]: the spec's state machine (section 4.1) as a [machine],
      the abstraction [phase_of] of a page to its phase, and the refinement
      of the spec's machine by the event loop (generic simulation lemmas
      [refine_star], [refine_reachable] of this file).
    - [Providers.v]: the provider objects ([wallets]) and the provider
      variable.  [grows S w w'] relates the objects of two pages (none
      lost, closed stays closed, listeners only added, only the objects
      in [S] closed); a lemma per operation of Flow.v and one per event.

    ** The theorems (claim ids of the manifest)

    - Invariants.v, by rule induction on [reachable]:
      C1 [login_enabled_receipt]: an enabled button goes with "Thank you!"
      and with the wallet's signature over the page's challenge in the
      signature field.  C2 [login_disabled_cleared]: a disabled button goes
      with an empty signature field.  C3 [username_shows_account].
    - Scenarios.v, runs:
      C4 [connect_fetch_sign]: the connect, fetch and sign chain from any
      page ends with the signature in the form and the button enabled.
      C5 [sign_rejected_disables]: a rejection disables from any page.
      C6 [stale_signature_enables_login]: the spec's invariant "enabled iff
      the signature belongs to the selected account" fails.
      C7 [fresh_trace_consistent]: the invariant holds along runs that
      deliver no stale signature.
      C8 [switch_closes_provider] and C9 [switch_cancelled_drops_provider]:
      switching closes the held provider before the dialog.  Cancelling
      then leaves the provider dropped and the form unchanged.
      C10 [accounts_changed_fetch_per_listener]: one fetch per listener, on
      the provider held now.  C11 [injected_provider_listeners_pile_up]:
      listeners pile up on an injected provider.
      C14 [empty_accounts_undefined]: an empty account list runs lines
      65-71, then web3 throws at line 72 and no signature is requested.
      C17 [rejection_outcomes]: a cancelled dialog is caught, a rejected
      close() or getAccounts() becomes an unhandled rejection with the page
      unchanged, and a rejected signature runs onSignatureAborted.
    - Termination.v: C12 [settle_decreases_measure]: each settlement
      decreases the pool measure.  C13 [drain_empties_pool]: the pool can
      always be emptied by steps of the event loop.
    - Refinement.v: C15 [widget_refines_spec]: every event of a reachable
      page keeps its phase or is a transition of the spec's machine (a
      stuttering forward simulation through [phase_of]).
      C16 [account_phase_stays]: once an account is selected, the page
      never shows the account choice again, so the spec's loop back is
      never taken.
    - Providers.v: C18 [held_provider_subscribed]: the held provider is a
      known object with an "accountsChanged" listener.  C19
      [only_switch_closes]: only a click on the switch link closes a
      provider object, and only the held one, when it has [close()].

    ** Plan for the next steps

    1. A finer abstraction for the refinement that also carries the
       signature and the account, and states which steps change them.
    2. The repair the spec proposes (a request generation counter that
       invalidates stale signature callbacks), modelled as a variant of
       [resume] and proved to restore the account-consistency invariant on
       every reachable page.  It is marked as spec-modelled.
    3. Provider objects (started in Providers.v): the number of listeners
       of an object is the number of connections that returned it, and a
       closed object handed out again by the dialog.
    4. Web3Modal's dialog as one shared promise: every [connect()] pending
       at the same time resolves with the same provider (see below).

    ** Ghost state, bounds and fuel

    [world] carries the console's log of unhandled errors, [uncaught]
    (what the browser reports as "Uncaught (in promise)"), and one ghost
    field, [signed_for].  It records which account
    and which request produced the signature in the form.  The code never
    reads it.  Provider objects live in a [gmap nat wallet] keyed by an
    object identity, so the dialog may return a provider it returned before
    (an injected provider such as window.ethereum is one object).  The drain
    of [Termination.v] uses the pool measure as its fuel.  The theorem shows
    that this fuel is enough.

    ** The environment: what the libraries may answer

    - The Web3Modal and Web3 libraries, the wallet and WalletConnect are not
      modelled as code.  Their answers are the settlements of the awaited
      promises, chosen by the environment, with the constraints of web3 1.x
      (the API the script calls): [getAccounts()] of a Web3 built without a
      provider rejects; [personal.sign] with an [undefined] account throws
      synchronously in its address formatter ([InvalidAddress]), so no
      request exists; [clearCachedProvider()] returns undefined.
    - Two choices over-approximate the browser, so that the theorems about
      every reachable page or every step hold a fortiori of the real page: settlements of
      the dialogs of overlapping [connect()] calls are independent (the
      library resolves them all with one provider), and the await of
      [clearCachedProvider()] resumes as an event of its own (the browser
      resumes it on a microtask).  The concrete runs (C6, C9, C11) use
      neither: they have one dialog open at a time.
    - A provider handed out again keeps its [closed] flag and its
      [has_close]; a closed provider fires no "accountsChanged".

    ** Not modelled

    - [console.log] (no state), [evmChains] (read, never used), the
      [providerOptions] package field (an opaque library constructor).
    - the DOM lookups are assumed to find their elements: the page always
      renders them.
*)

From stdpp Require Import base tactics list.

(** The development's notations. *)
Declare Scope page_scope.
Delimit Scope page_scope with page.

(** The hint database of the development: lemmas that close the routine
    goals about the page state. *)
Create HintDb page discriminated.

(** The rewrite database of the development. *)
Create Rewrite HintDb page_rw.

(** ** Transition sequences *)
Section Star.
Context {A : Type} (R : A -> A -> Prop).

Inductive star : A -> A -> Prop :=
| star_refl a : star a a
| star_step a b c : R a b -> star b c -> star a c.

Lemma star_one a b : R a b -> star a b.
Proof. eauto using star. Qed.

Lemma star_trans a b c : star a b -> star b c -> star a c.
Proof. induction 1; eauto using star. Qed.

(** An invariant of single steps is an invariant of sequences. *)
Lemma star_invariant (P : A -> Prop) :
  (forall a b, P a -> R a b -> P b) ->
  forall a b, star a b -> P a -> P b.
Proof. intros Hstep a b Hs. induction Hs; eauto. Qed.
End Star.

#[export] Hint Resolve star_refl star_one : page.

(** [R ^*] is the reflexive-transitive closure of [R]. *)
Notation "R ^*" := (star R) (at level 5, format "R ^*") : page_scope.

(** ** Sums over pools *)

(** Removing the [i]-th element of a pool takes its weight out of the sum. *)
Lemma sum_list_with_delete {A} (f : A -> nat) (l : list A) i x :
  l !! i = Some x ->
  sum_list_with f (delete i l) + f x = sum_list_with f l.
Proof.
  revert i. induction l as [|y l IH]; intros [|i] Hi; simpl in *; try done.
  - injection Hi as ->. lia.
  - rewrite <- (IH i Hi). lia.
Qed.

Lemma sum_list_with_app {A} (f : A -> nat) (l1 l2 : list A) :
  sum_list_with f (l1 ++ l2) = sum_list_with f l1 + sum_list_with f l2.
Proof. induction l1; simpl; lia. Qed.

#[export] Hint Rewrite @sum_list_with_app : page_rw.

(** ** The newest element of a pool *)

Lemma lookup_snoc_length {A} (l : list A) x : (l ++ [x]) !! length l = Some x.
Proof. by apply list_lookup_middle. Qed.

Lemma delete_snoc_length {A} (l : list A) x : delete (length l) (l ++ [x]) = l.
Proof. rewrite delete_middle. apply app_nil_r. Qed.

#[export] Hint Rewrite @lookup_snoc_length @delete_snoc_length : page_rw.

(** ** Machines and refinement

    A machine is a set of initial states and a step relation.  [C] refines
    [A] through the abstraction [abs] when, under an invariant [I] of [C],
    every step of [C] is a step of [A] or leaves the abstract state alone. *)
Record machine := mk_machine {
  m_state : Type;
  m_init : m_state -> Prop;
  m_step : m_state -> m_state -> Prop
}.

Definition m_reachable (M : machine) (s : m_state M) : Prop :=
  exists s0, m_init M s0 /\ star (m_step M) s0 s.

Section Refinement.
Context (C A : machine) (abs : m_state C -> m_state A) (I : m_state C -> Prop).
Hypothesis refine_init : forall s, m_init C s -> I s /\ m_init A (abs s).
Hypothesis refine_step : forall s s', I s -> m_step C s s' ->
  I s' /\ (abs s' = abs s \/ m_step A (abs s) (abs s')).

Lemma refine_star s s' :
  I s -> star (m_step C) s s' -> I s' /\ star (m_step A) (abs s) (abs s').
Proof.
  intros Hi Hs. induction Hs as [s|s s1 s' Hst _ IH]; [split; [done | apply star_refl]|].
  destruct (refine_step s s1 Hi Hst) as [Hi1 [Heq|Ha]].
  - destruct (IH Hi1) as [? Hs']. rewrite Heq in Hs'. done.
  - destruct (IH Hi1) as [? Hs']. split; [done|]. by eapply star_step.
Qed.

Lemma refine_reachable s : m_reachable C s -> I s /\ m_reachable A (abs s).
Proof.
  intros (s0&H0&Hs). destruct (refine_init s0 H0) as [Hi Ha].
  destruct (refine_star s0 s Hi Hs) as [? ?]. split; [done|]. by exists (abs s0).
Qed.
End Refinement.
