(* ===== verification/Js.v ===== *)
(** * The fragment of the JavaScript runtime the widget relies on

    A state and exception monad [JS S A] over a program state [S]: the
    synchronous code between two [await]s of an [async] function reads and
    writes the state, and may throw (a [TypeError] when a method of
    [undefined] is called, an [Error] from a library call).  It is an instance of stdpp's [MRet]/[MBind], so
    [x ← m; k] and [m ;; k] read like the source's statement sequences.

    [js_async report m] runs code of an [async] function whose promise is
    not awaited: an exception rejects that promise instead of propagating
    to the caller, and is reported as an unhandled rejection.  [settled] is
    the outcome of an awaited promise. *)

From S2P Require Import Spec2Rocq.
From stdpp Require Import base tactics.

(** A [TypeError] thrown by the code itself, the rejection of an awaited
    promise rethrown by [await], or the [Error] a library method throws
    synchronously on an argument it cannot format (web3 1.x's address
    formatter on an [undefined] account). *)
Inductive js_error := TypeError | Rejection | InvalidAddress.

Definition JS (S A : Type) : Type := S -> S * (A + js_error).

#[export] Instance js_mret {S} : MRet (JS S) := fun A a s => (s, inl a).
#[export] Instance js_mbind {S} : MBind (JS S) := fun A B k m s =>
  match m s with
  | (s', inl a) => k a s'
  | (s', inr e) => (s', inr e)
  end.

Definition js_gets {S A} (f : S -> A) : JS S A := fun s => (s, inl (f s)).
Definition js_modify {S} (f : S -> S) : JS S unit := fun s => (f s, inl tt).
Definition js_throw {S A} (e : js_error) : JS S A := fun s => (s, inr e).

(** [try { m } catch (e) { h e }] *)
Definition js_try {S A} (m : JS S A) (h : js_error -> JS S A) : JS S A :=
  fun s => match m s with
           | (s', inr e) => h e s'
           | r => r
           end.

(** Code of an [async] function whose promise nobody awaits: an exception
    rejects that promise instead of propagating, the state it changed
    before throwing stays changed, and [report] records the rejection the
    runtime reports as unhandled. *)
Definition js_async {S} (report : js_error -> S -> S) (m : JS S unit) : JS S unit :=
  fun s => match m s with
           | (s', inl _) => (s', inl tt)
           | (s', inr e) => (report e s', inl tt)
           end.

(** The state after running a piece of synchronous code. *)
Definition js_exec {S} (m : JS S unit) (s : S) : S := fst (m s).

(** [n] calls in sequence, as when an event fires [n] listeners. *)
Fixpoint js_repeat {S} (n : nat) (m : JS S unit) : JS S unit :=
  match n with
  | 0 => mret tt
  | S n => m ;; js_repeat n m
  end.

(** The outcome of an awaited promise. *)
Inductive settled (A : Type) :=
| Fulfilled (v : A)
| Rejected.
Arguments Fulfilled {A} v.
Arguments Rejected {A}.

(** ** The laws the proofs rewrite with *)
Section Laws.
Context {S : Type}.

Lemma js_exec_bind_ok {A} (m : JS S A) (k : A -> JS S unit) s s' a :
  m s = (s', inl a) -> js_exec (m ≫= k) s = js_exec (k a) s'.
Proof. intros H. unfold js_exec, mbind, js_mbind. by rewrite H. Qed.

Lemma js_exec_bind_err {A} (m : JS S A) (k : A -> JS S unit) s s' e :
  m s = (s', inr e) -> js_exec (m ≫= k) s = s'.
Proof. intros H. unfold js_exec, mbind, js_mbind. by rewrite H. Qed.

Lemma js_exec_modify_seq (f : S -> S) (k : JS S unit) s :
  js_exec (js_modify f ;; k) s = js_exec k (f s).
Proof. reflexivity. Qed.

Lemma js_exec_async_ok report (m : JS S unit) s :
  snd (m s) = inl tt -> js_exec (js_async report m) s = js_exec m s.
Proof. unfold js_exec, js_async. destruct (m s) as [s' [[]|e]]; simpl; congruence. Qed.

Lemma js_async_no_throw report (m : JS S unit) s :
  snd (m s) = inl tt -> js_async report m s = (fst (m s), inl tt).
Proof. unfold js_async. destruct (m s) as [s' [[]|e]]; simpl; congruence. Qed.

Lemma js_async_ok report (m : JS S unit) s : snd (js_async report m s) = inl tt.
Proof. unfold js_async. by destruct (m s) as [s' [[]|e]]. Qed.

Lemma js_exec_ret s : js_exec (mret (M := JS S) tt) s = s.
Proof. reflexivity. Qed.

(** A property kept by every step of a program is kept by [js_repeat]. *)
Lemma js_repeat_preserves (P : S -> Prop) (m : JS S unit) n :
  (forall s, P s -> P (fst (m s)) /\ snd (m s) = inl tt) ->
  forall s, P s -> P (fst (js_repeat n m s)).
Proof.
  intros Hm. induction n as [|n IH]; intros s Hs; simpl; [done|].
  unfold mbind, js_mbind. destruct (Hm s Hs) as [Hs' Hok].
  destruct (m s) as [s' r] eqn:E; simpl in *; subst. by apply IH.
Qed.
End Laws.

#[export] Hint Rewrite @js_exec_modify_seq @js_exec_ret : page_rw.
