(* ===== verification/Page.v ===== *)
(** * The page: DOM fields, module-level state, provider objects

    [dom_state] holds the form fields AcceptInvitePage.js reads and writes.
    [world] is the module-level state of the script (lines 26-38)
    together with the DOM, the provider objects the dialog handed out,
    the pool of suspended [async] activations, and one ghost field.
    [init], [onSigned] and [onSignatureAborted] are the three functions
    without an [await]; they are written as [JS world unit] programs
    statement by statement. *)

From S2P Require Import Spec2Rocq Js.
From stdpp Require Import base tactics list gmap strings.
From Stdlib Require Import String.
Local Open Scope string_scope.

(** ** The DOM *)

Record dom_state := mk_dom {
  field_signature : string;          (** #field-signature .value *)
  btn_login_disabled : bool;         (** .btn-login .disabled *)
  waiting_msg : string;              (** #waiting-for-signature-msg .textContent *)
  username : string;                 (** .username .value *)
  field_signature_request : string;  (** #field-signature-request .value (read only) *)
  switch_listener : bool             (** onConnect registered on #btn-switch-account *)
}.

(** The four status texts of the source. *)
Definition msg_choose : string := "Please choose an account to proceed.".
Definition msg_waiting : string :=
  "The join button will activate once you have proven your identity by providing the requested signature.".
Definition msg_thanks : string := "Thank you! You can now join the project.".
Definition msg_cannot_join : string :=
  "You cannot join the project unless you prove your identity. Please use the switch account link above to get back to choosing an account.".

Arguments msg_choose : simpl never.
Arguments msg_waiting : simpl never.
Arguments msg_thanks : simpl never.
Arguments msg_cannot_join : simpl never.

(** Writing a JS value into an input: [undefined] becomes "undefined". *)
Definition js_string (v : option string) : string :=
  match v with Some s => s | None => "undefined" end.

(** ** Web3Modal configuration and provider objects *)

Record provider_options := mk_provider_options { walletconnect_infuraId : string }.
Record modal := mk_modal { cacheProvider : bool; providerOptions : provider_options }.

(** A provider object handed out by the dialog: whether it has a [close]
    method, whether [close()] was called on it, and how many
    "accountsChanged" listeners the script registered on it. *)
Record wallet := mk_wallet { has_close : bool; closed : bool; listeners : nat }.

(** ** Suspended activations

    Each constructor is an [async] function stopped at one [await] (see
    Flow.v for the code that runs when the awaited promise settles). *)
Inductive task :=
| TConnectClose (p : nat)      (** onConnect, line 97: await provider.close() *)
| TConnectClear                (** onConnect, line 100: await web3Modal.clearCachedProvider() *)
| TConnectDialog               (** onConnect, line 107: provider = await web3Modal.connect() *)
| TFetchAccounts (web3 : option nat)
    (** fetchAccountData, line 64: await web3.eth.getAccounts(), web3 = new Web3(provider) *)
| TSign (web3 : option nat) (msg : string) (account : string).
    (** lines 72-73: web3.eth.personal.sign(msg, account).then(onSigned, onSignatureAborted) *)

(** Ghost: the request whose answer is in the signature field. *)
Record receipt := mk_receipt { rc_account : string; rc_message : string; rc_signature : string }.

Record world := mk_world {
  loaded : bool;                     (** the window's load event has fired *)
  web3Modal : option modal;          (** let web3Modal *)
  provider : option nat;             (** let provider (undefined / null = None) *)
  selectedAccount : option string;   (** let selectedAccount *)
  doc : dom_state;
  wallets : gmap nat wallet;         (** provider objects, by identity *)
  pending : list task;               (** suspended activations *)
  signed_for : option receipt;       (** ghost *)
  uncaught : list js_error           (** the errors the console reports as unhandled *)
}.

(** ** Field updates *)

Definition set_doc (f : dom_state -> dom_state) (w : world) : world :=
  mk_world (loaded w) (web3Modal w) (provider w) (selectedAccount w) (f (doc w))
           (wallets w) (pending w) (signed_for w) (uncaught w).
Definition set_loaded (w : world) : world :=
  mk_world true (web3Modal w) (provider w) (selectedAccount w) (doc w)
           (wallets w) (pending w) (signed_for w) (uncaught w).
Definition set_web3Modal (m : option modal) (w : world) : world :=
  mk_world (loaded w) m (provider w) (selectedAccount w) (doc w)
           (wallets w) (pending w) (signed_for w) (uncaught w).
Definition set_provider (p : option nat) (w : world) : world :=
  mk_world (loaded w) (web3Modal w) p (selectedAccount w) (doc w)
           (wallets w) (pending w) (signed_for w) (uncaught w).
Definition set_selectedAccount (a : option string) (w : world) : world :=
  mk_world (loaded w) (web3Modal w) (provider w) a (doc w)
           (wallets w) (pending w) (signed_for w) (uncaught w).
Definition set_wallets (f : gmap nat wallet -> gmap nat wallet) (w : world) : world :=
  mk_world (loaded w) (web3Modal w) (provider w) (selectedAccount w) (doc w)
           (f (wallets w)) (pending w) (signed_for w) (uncaught w).
Definition set_pending (l : list task) (w : world) : world :=
  mk_world (loaded w) (web3Modal w) (provider w) (selectedAccount w) (doc w)
           (wallets w) l (signed_for w) (uncaught w).
Definition set_signed_for (r : option receipt) (w : world) : world :=
  mk_world (loaded w) (web3Modal w) (provider w) (selectedAccount w) (doc w)
           (wallets w) (pending w) r (uncaught w).

Definition set_uncaught (l : list js_error) (w : world) : world :=
  mk_world (loaded w) (web3Modal w) (provider w) (selectedAccount w) (doc w)
           (wallets w) (pending w) (signed_for w) l.

(** An unhandled rejection is logged. *)
Definition report_uncaught (e : js_error) (w : world) : world :=
  set_uncaught (uncaught w ++ [e]) w.

(** Code of an [async] function of the script whose promise nobody awaits. *)
Definition detached (m : JS world unit) : JS world unit := js_async report_uncaught m.

Definition dom_set_field_signature (v : string) (d : dom_state) : dom_state :=
  mk_dom v (btn_login_disabled d) (waiting_msg d) (username d)
         (field_signature_request d) (switch_listener d).
Definition dom_set_disabled (b : bool) (d : dom_state) : dom_state :=
  mk_dom (field_signature d) b (waiting_msg d) (username d)
         (field_signature_request d) (switch_listener d).
Definition dom_set_waiting_msg (m : string) (d : dom_state) : dom_state :=
  mk_dom (field_signature d) (btn_login_disabled d) m (username d)
         (field_signature_request d) (switch_listener d).
Definition dom_set_username (u : string) (d : dom_state) : dom_state :=
  mk_dom (field_signature d) (btn_login_disabled d) (waiting_msg d) u
         (field_signature_request d) (switch_listener d).
Definition dom_set_switch_listener (d : dom_state) : dom_state :=
  mk_dom (field_signature d) (btn_login_disabled d) (waiting_msg d) (username d)
         (field_signature_request d) true.

(** ** The statements, as [JS world] actions *)

(** document.querySelector("#field-signature").value = v *)
Definition setFieldSignature (v : string) : JS world unit :=
  js_modify (set_doc (dom_set_field_signature v)).
(** document.querySelector(".btn-login").disabled = b *)
Definition setLoginDisabled (b : bool) : JS world unit :=
  js_modify (set_doc (dom_set_disabled b)).
(** document.querySelector("#waiting-for-signature-msg").textContent = m *)
Definition setWaitingMsg (m : string) : JS world unit :=
  js_modify (set_doc (dom_set_waiting_msg m)).
(** document.querySelector(".username").value = u *)
Definition setUsername (u : string) : JS world unit :=
  js_modify (set_doc (dom_set_username u)).

(** [init] (lines 40-58). *)
Definition init : JS world unit :=
  setFieldSignature "" ;;
  setLoginDisabled true ;;
  setWaitingMsg msg_choose ;;
  let providerOptions := mk_provider_options "DUMMY-ID" in
  js_modify (set_web3Modal (Some (mk_modal false providerOptions))).

(** [onSigned] (lines 76-81). *)
Definition onSigned (signedMessage : string) : JS world unit :=
  setFieldSignature signedMessage ;;
  setLoginDisabled false ;;
  setWaitingMsg msg_thanks.

(** [onSignatureAborted] (lines 83-88); its argument is never read. *)
Definition onSignatureAborted : JS world unit :=
  setFieldSignature "" ;;
  setLoginDisabled true ;;
  setWaitingMsg msg_cannot_join.

(** The status texts are pairwise distinct. *)
Lemma msg_choose_ne_thanks : msg_choose <> msg_thanks.
Proof. discriminate. Qed.
Lemma msg_waiting_ne_thanks : msg_waiting <> msg_thanks.
Proof. discriminate. Qed.
Lemma msg_cannot_join_ne_thanks : msg_cannot_join <> msg_thanks.
Proof. discriminate. Qed.

#[export] Hint Resolve msg_choose_ne_thanks msg_waiting_ne_thanks
  msg_cannot_join_ne_thanks : page.
