(* ===== verification/Flow.v ===== *)
(** * The asynchronous functions: onConnect and fetchAccountData

    An [async] function runs synchronously up to its first [await], then
    suspends.  Each function is written here as the [JS world] program of
    its code up to the first [await] ([onConnect], [fetchAccountData]),
    and one program per [await] for the code that follows it
    ([onConnect_closed], [onConnect_cleared], [onConnect_connected],
    [fetchAccountData_accounts]).  [suspend t] is the [await]: it puts
    the activation, as task [t], into the pending pool.  [resume t r] is the
    code that runs when the promise [t] awaits settles with [r]; it is
    [None] for a settlement the awaited call cannot produce. *)

From S2P Require Import Spec2Rocq Js Page.
From stdpp Require Import base tactics list gmap strings.
From Stdlib Require Import String.
Local Open Scope string_scope.

(** What an awaited promise of the wallet libraries resolves to. *)
Inductive value :=
| VUndefined                              (** close(), clearCachedProvider() *)
| VProvider (id : nat) (has_close : bool) (** web3Modal.connect(): a provider object *)
| VAccounts (accounts : list string)      (** web3.eth.getAccounts() *)
| VSignature (signature : string).        (** web3.eth.personal.sign(...) *)

(** ** Primitive actions on the world *)

(** The [await] of an activation: it becomes task [t] of the pool. *)
Definition suspend (t : task) : JS world unit :=
  js_modify (fun w => set_pending (pending w ++ [t]) w).

(** [if (provider.close)] on the provider object [p]. *)
Definition providerHasClose (p : nat) : JS world bool :=
  js_gets (fun w => match wallets w !! p with Some wl => has_close wl | None => false end).

(** The call [provider.close()]: the object is closed from now on. *)
Definition closeProvider (p : nat) : JS world unit :=
  js_modify (set_wallets (alter (fun wl => mk_wallet (has_close wl) true (listeners wl)) p)).

(** The dialog hands out object [p]: a new object is recorded, an object
    handed out before keeps its identity and its listeners. *)
Definition receiveProvider (p : nat) (hc : bool) : JS world unit :=
  js_modify (set_wallets (fun ws =>
    match ws !! p with Some _ => ws | None => <[p := mk_wallet hc false 0]> ws end)).

(** [provider.on("accountsChanged", ...)]: one more listener on [p]. *)
Definition subscribeAccountsChanged (p : nat) : JS world unit :=
  js_modify (set_wallets (alter (fun wl => mk_wallet (has_close wl) (closed wl) (S (listeners wl))) p)).

(** ** fetchAccountData (lines 60-74) *)

(** Lines 61-64 up to the await: [new Web3(provider)] captures the
    provider held now. *)
Definition fetchAccountData : JS world unit :=
  p ← js_gets provider;
  suspend (TFetchAccounts p).

(** Lines 65-73, once [getAccounts()] resolved to [accounts].  Line 72:
    web3 1.x formats the arguments of [personal.sign] before it creates the
    request, and its address formatter throws on an [undefined] account; the
    exception leaves fetchAccountData before [.then] is attached, so no
    request is made and neither callback runs. *)
Definition fetchAccountData_accounts (web3 : option nat) (accounts : list string)
  : JS world unit :=
  js_modify (set_selectedAccount (head accounts)) ;;
  a ← js_gets selectedAccount;
  setUsername (js_string a) ;;
  setFieldSignature "" ;;
  setLoginDisabled true ;;
  setWaitingMsg msg_waiting ;;
  req ← js_gets (fun w => field_signature_request (doc w));
  match a with
  | Some a => suspend (TSign web3 req a)
  | None => js_throw InvalidAddress
  end.

(** ** onConnect (lines 94-119) *)

(** Lines 105-107 up to the await, inside the [try] of lines 106-111: with
    [web3Modal] undefined, [web3Modal.connect()] throws, and the [catch]
    logs and returns. *)
Definition openDialog : JS world unit :=
  m ← js_gets web3Modal;
  match m with
  | None => mret tt
  | Some _ => suspend TConnectDialog
  end.

(** Lines 95-107 up to the first await. *)
Definition onConnect : JS world unit :=
  p ← js_gets provider;
  match p with
  | Some id =>
      c ← providerHasClose id;
      if (c : bool) then (closeProvider id ;; suspend (TConnectClose id))
      else openDialog
  | None => openDialog
  end.

(** Line 100, after [provider.close()] resolved: [web3Modal] undefined makes
    the call throw (outside the [try]: onConnect rejects). *)
Definition onConnect_closed : JS world unit :=
  m ← js_gets web3Modal;
  match m with
  | None => js_throw TypeError
  | Some _ => suspend TConnectClear
  end.

(** Lines 101-107, after [clearCachedProvider()] resumed. *)
Definition onConnect_cleared : JS world unit :=
  js_modify (set_provider None) ;;
  openDialog.

(** Lines 107-118, after the dialog answered the provider object [id]. The
    await of line 118 is that of fetchAccountData's own first await:
    nothing of onConnect follows it. *)
Definition onConnect_connected (id : nat) (hc : bool) : JS world unit :=
  receiveProvider id hc ;;
  js_modify (set_provider (Some id)) ;;
  subscribeAccountsChanged id ;;
  fetchAccountData.

(** ** Resuming a suspended activation *)

(** The ghost receipt of a delivered signature. *)
Definition record_receipt (r : option receipt) : JS world unit :=
  js_modify (set_signed_for r).

Definition resume (t : task) (r : settled value) : option (JS world unit) :=
  match t, r with
  (* line 97: the await of close() rethrows a rejection outside any try *)
  | TConnectClose _, Fulfilled _ => Some onConnect_closed
  | TConnectClose _, Rejected => Some (js_throw Rejection)
  (* line 100: clearCachedProvider() returns undefined; its await cannot fail *)
  | TConnectClear, Fulfilled VUndefined => Some onConnect_cleared
  (* lines 106-111: a rejected dialog is caught, logged, and onConnect returns *)
  | TConnectDialog, Fulfilled (VProvider id hc) => Some (onConnect_connected id hc)
  | TConnectDialog, Rejected => Some (mret tt)
  (* line 64: a Web3 without provider rejects getAccounts() (web3 1.x: an
     InvalidProvider error); the await rethrows a
     rejection, which rejects fetchAccountData (and the onConnect awaiting it) *)
  | TFetchAccounts (Some p), Fulfilled (VAccounts l) =>
      Some (fetchAccountData_accounts (Some p) l)
  | TFetchAccounts _, Rejected => Some (js_throw Rejection)
  (* line 73: .then(onSigned, onSignatureAborted) *)
  | TSign _ m a, Fulfilled (VSignature s) =>
      Some (record_receipt (Some (mk_receipt a m s)) ;; onSigned s)
  | TSign _ _ _, Rejected => Some onSignatureAborted
  | _, _ => None
  end.

(** A rejection is an answer every awaited promise can give except
    [clearCachedProvider()]'s. *)
Lemma resume_rejected t :
  t <> TConnectClear -> is_Some (resume t Rejected).
Proof. intros Ht. destruct t as [| | |[]|? ? ?]; simpl; try (eexists; reflexivity). by destruct Ht. Qed.
