(* ===== verification/EventLoop.v ===== *)
(** * The browser event loop around the script

    The page reacts to four kinds of events: the window's [load], a click
    on #btn-switch-account, an "accountsChanged" notification of a
    provider object, and the settlement of a promise some suspended
    activation awaits.  [dispatch w e] is the page after event [e], or
    [None] when [e] cannot happen in [w].  [run] folds it over a trace.
    [reachable] holds for the pages some trace leads to from a freshly
    rendered page. *)

From S2P Require Import Spec2Rocq Js Page Flow.
From stdpp Require Import base tactics list gmap strings.

Inductive event :=
| EvLoad
| EvClickSwitch
| EvAccountsChanged (p : nat) (accounts : list string)
| EvSettle (i : nat) (r : settled value).

(** The listener of lines 114-116; it ignores the accounts it is given. *)
Definition accountsChangedListener (accounts : list string) : JS world unit :=
  detached fetchAccountData.

(** The load handler (lines 124-128): [init()], the un-awaited
    [onConnect()], then the click handler of the switch link. *)
Definition load_handler : JS world unit :=
  init ;;
  detached onConnect ;;
  js_modify (set_doc dom_set_switch_listener).

(** The settled activation leaves the pool; the code that follows its
    [await] runs with nobody awaiting its promise. *)
Definition remove_pending (i : nat) (w : world) : world :=
  set_pending (delete i (pending w)) w.

Definition dispatch (w : world) (e : event) : option world :=
  match e with
  | EvLoad => if loaded w then None else Some (js_exec load_handler (set_loaded w))
  | EvClickSwitch =>
      Some (if switch_listener (doc w) then js_exec (detached onConnect) w else w)
  | EvAccountsChanged p accounts =>
      wl ← wallets w !! p;
      if closed wl then None
      else Some (js_exec (js_repeat (listeners wl) (accountsChangedListener accounts)) w)
  | EvSettle i r =>
      t ← pending w !! i;
      m ← resume t r;
      Some (js_exec (detached m) (remove_pending i w))
  end.

Fixpoint run (w : world) (evs : list event) : option world :=
  match evs with
  | [] => Some w
  | e :: evs => w' ← dispatch w e; run w' evs
  end.

(** The page as the server rendered it: the script has not run. *)
Definition initial_world (d : dom_state) : world :=
  mk_world false None None None
    (mk_dom (field_signature d) (btn_login_disabled d) (waiting_msg d)
            (username d) (field_signature_request d) false)
    ∅ [] None [].

(** [w =[ e ]=> w']: event [e] can happen on page [w] and leads to [w']. *)
Notation "w =[ e ]=> w'" := (dispatch w e = Some w')
  (at level 70, format "w  =[ e ]=>  w'") : page_scope.
Local Open Scope page_scope.

Definition step (w w' : world) : Prop := exists e, w =[ e ]=> w'.

Definition reachable (w : world) : Prop :=
  exists d, step^* (initial_world d) w.

(** ** Traces and reachability *)

Lemma run_star w evs w' : run w evs = Some w' -> star step w w'.
Proof.
  revert w. induction evs as [|e evs IH]; intros w H; simpl in H.
  - injection H as ->. apply star_refl.
  - destruct (dispatch w e) as [w1|] eqn:E; [|done].
    eapply star_step; [by exists e | by apply IH].
Qed.

Lemma run_reachable d evs w : run (initial_world d) evs = Some w -> reachable w.
Proof. intros H. exists d. by eapply run_star. Qed.

Lemma run_app w evs1 evs2 :
  run w (evs1 ++ evs2) = (w' ← run w evs1; run w' evs2).
Proof.
  revert w. induction evs1 as [|e evs1 IH]; intros w; simpl; [done|].
  destruct (dispatch w e); simpl; [apply IH|done].
Qed.

Lemma reachable_step w w' : reachable w -> step w w' -> reachable w'.
Proof.
  intros [d Hd] Hs. exists d. eapply star_trans; [exact Hd | by apply star_one].
Qed.

(** Properties of reachable pages are proved by induction on the steps. *)
Lemma reachable_ind (P : world -> Prop) :
  (forall d, P (initial_world d)) ->
  (forall w e w', P w -> dispatch w e = Some w' -> P w') ->
  forall w, reachable w -> P w.
Proof.
  intros Hinit Hstep w [d Hd].
  apply (star_invariant step P) with (initial_world d); auto.
  intros a b Ha [e He]. eauto.
Qed.

#[export] Hint Resolve run_reachable reachable_step : page.

(** ** Sample runs

    A page whose challenge is "hello"; the wallet answers the dialog with
    the provider object 1 (a WalletConnect provider: it has [close]), the
    account list with "0xABC", and the signature request with "0xSIGNED". *)
Definition sample_page : dom_state := mk_dom "" true "" "" "hello" false.

Definition happy_trace : list event :=
  [EvLoad; EvSettle 0 (Fulfilled (VProvider 1 true));
   EvSettle 0 (Fulfilled (VAccounts ["0xABC"]));
   EvSettle 0 (Fulfilled (VSignature "0xSIGNED"))].

(** The page a trace leads to from [sample_page] (the sample page itself if
    the trace cannot happen). *)
Definition sample_run (evs : list event) : world :=
  default (initial_world sample_page) (run (initial_world sample_page) evs).
