(* ===== verification/Invariants.v ===== *)
(** * Invariants of the page

    [quiet w w'] says that going from [w] to [w'] touched neither the form,
    the selected account, the ghost receipt nor the modal, and only added
    activations that are not signature requests.  All of onConnect's code
    and the part of fetchAccountData before its [await] are quiet
    ([Quiet] section).  The invariant [page_inv] of reachable pages follows
    ([Inv] section): once loaded, the login button is enabled exactly when
    the status reads "Thank you!", and then the signature field holds the
    wallet's answer to a request over the page's challenge. *)

From S2P Require Import Spec2Rocq Js Page Flow EventLoop.
From stdpp Require Import base tactics list gmap strings.
From Stdlib Require Import String.

(** Unfold the monad down to record updates. *)
Ltac js_unfold :=
  unfold init, onSigned, onSignatureAborted, setFieldSignature, setLoginDisabled,
    setWaitingMsg, setUsername in *;
  unfold js_exec, js_async, mbind, js_mbind, mret, js_mret, js_gets, js_modify,
    js_throw, set_doc, set_loaded, set_web3Modal, set_provider, set_selectedAccount,
    set_wallets, set_pending, set_signed_for, dom_set_field_signature,
    dom_set_disabled, dom_set_waiting_msg, dom_set_username,
    dom_set_switch_listener in *; simpl in *.

(** Unfold the operations of Flow.v as well. *)
Ltac flow_unfold :=
  unfold onConnect, onConnect_closed, onConnect_cleared, openDialog, onConnect_connected,
    receiveProvider, subscribeAccountsChanged, providerHasClose, closeProvider,
    fetchAccountData, fetchAccountData_accounts, record_receipt, suspend in *;
  js_unfold.

Definition no_sign (t : task) : Prop :=
  match t with TSign _ _ _ => False | _ => True end.

Definition quiet (w w' : world) : Prop :=
  loaded w' = loaded w /\ web3Modal w' = web3Modal w /\
  selectedAccount w' = selectedAccount w /\ doc w' = doc w /\
  signed_for w' = signed_for w /\
  exists l, pending w' = pending w ++ l /\ Forall no_sign l.

(** A step that changes only fields outside [quiet]'s view, possibly
    appending activations. *)
Ltac quiet_frame :=
  repeat split; eexists; split;
  [first [reflexivity | symmetry; apply app_nil_r] | repeat constructor].

Section Quiet.

#[export] Instance quiet_preorder : PreOrder quiet.
Proof.
  split.
  - intros w. quiet_frame.
  - intros w1 w2 w3 (?&?&?&?&?&l1&Hl1&F1) (?&?&?&?&?&l2&Hl2&F2).
    repeat split; try congruence. exists (l1 ++ l2).
    rewrite Hl2, Hl1, app_assoc. split; [done|]. by apply Forall_app_2.
Qed.

Lemma quiet_suspend w t : no_sign t -> quiet w (js_exec (suspend t) w).
Proof. intros Ht. repeat split. exists [t]. auto. Qed.

Lemma quiet_set_wallets w f : quiet w (set_wallets f w).
Proof. quiet_frame. Qed.

Lemma quiet_set_provider w p : quiet w (set_provider p w).
Proof. quiet_frame. Qed.

Lemma quiet_openDialog w : quiet w (js_exec openDialog w).
Proof.
  unfold openDialog. js_unfold. destruct (web3Modal w).
  - by apply quiet_suspend.
  - reflexivity.
Qed.

Lemma quiet_fetchAccountData w : quiet w (js_exec fetchAccountData w).
Proof. by apply quiet_suspend. Qed.

Lemma quiet_onConnect w : quiet w (js_exec onConnect w).
Proof.
  unfold onConnect, providerHasClose. js_unfold.
  destruct (provider w) as [id|]; [|apply quiet_openDialog].
  destruct (wallets w !! id) as [[[] ? ?]|]; simpl; try apply quiet_openDialog.
  quiet_frame.
Qed.

Lemma quiet_onConnect_closed w : quiet w (js_exec onConnect_closed w).
Proof.
  unfold onConnect_closed. js_unfold. destruct (web3Modal w).
  - by apply quiet_suspend.
  - reflexivity.
Qed.

Lemma quiet_onConnect_cleared w : quiet w (js_exec onConnect_cleared w).
Proof.
  unfold onConnect_cleared. js_unfold.
  etransitivity; [apply (quiet_set_provider w None)|]. apply quiet_openDialog.
Qed.

Lemma quiet_onConnect_connected w id hc : quiet w (js_exec (onConnect_connected id hc) w).
Proof.
  unfold onConnect_connected, receiveProvider, subscribeAccountsChanged. js_unfold.
  etransitivity; [|apply quiet_fetchAccountData]. quiet_frame.
Qed.

(** Logging an unhandled rejection is quiet. *)
Lemma quiet_report w w' e : quiet w w' -> quiet w (report_uncaught e w').
Proof. intros (?&?&?&?&?&l&?&?). repeat split; auto. by exists l. Qed.

Lemma quiet_detached m w : quiet w (js_exec m w) -> quiet w (js_exec (detached m) w).
Proof.
  unfold detached, js_async, js_exec. destruct (m w) as [w' [?|e]]; simpl; auto using quiet_report.
Qed.

Lemma pending_detached m w : pending (js_exec (detached m) w) = pending (js_exec m w).
Proof. unfold detached, js_async, js_exec. by destruct (m w) as [w' [?|e]]. Qed.

(** Every listener of an "accountsChanged" event is quiet. *)
Lemma quiet_accountsChanged w n accounts :
  quiet w (js_exec (js_repeat n (accountsChangedListener accounts)) w).
Proof.
  apply (js_repeat_preserves (quiet w)); [|reflexivity].
  intros s Hs. split; [|apply js_async_ok].
  etransitivity; [exact Hs | apply quiet_detached, quiet_fetchAccountData].
Qed.

(** onConnect's code before its first await never throws: a missing
    [web3Modal] there is caught by the try around the dialog. *)
Lemma onConnect_no_throw w : snd (onConnect w) = inl tt.
Proof.
  unfold onConnect, providerHasClose, openDialog. js_unfold.
  destruct (provider w) as [id|]; [destruct (wallets w !! id) as [[[] ? ?]|]|];
    simpl; try destruct (web3Modal w); done.
Qed.

(** The load handler runs init, onConnect up to its first await, and
    wires the switch link. *)
Lemma load_handler_exec w :
  js_exec load_handler w =
  set_doc dom_set_switch_listener (js_exec onConnect (js_exec init w)).
Proof.
  unfold load_handler. rewrite (js_exec_bind_ok _ _ _ (js_exec init w) tt) by reflexivity.
  rewrite (js_exec_bind_ok _ _ _ (js_exec onConnect (js_exec init w)) tt); [reflexivity|].
  unfold detached. apply js_async_no_throw, onConnect_no_throw.
Qed.

End Quiet.

#[export] Hint Resolve quiet_detached quiet_onConnect quiet_onConnect_closed quiet_onConnect_cleared
  quiet_onConnect_connected quiet_accountsChanged quiet_fetchAccountData : page.

(** ** What settling an activation can do

    The code that runs when an awaited promise settles is either quiet, or
    fetchAccountData after getAccounts (which, on an empty account list,
    throws at line 72 after its writes of lines 65-71, an error reported
    as unhandled), or one of the two signature callbacks. *)
Inductive settle_effect (t : task) (r : settled value) (w1 w' : world) : Prop :=
| se_quiet : quiet w1 w' -> settle_effect t r w1 w'
| se_accounts p l :
    t = TFetchAccounts (Some p) ->
    w' = js_exec (fetchAccountData_accounts (Some p) l) w1 -> settle_effect t r w1 w'
| se_no_account p :
    t = TFetchAccounts (Some p) -> r = Fulfilled (VAccounts []) ->
    w' = report_uncaught InvalidAddress (js_exec (fetchAccountData_accounts (Some p) []) w1) ->
    settle_effect t r w1 w'
| se_signed web3 msg a s :
    t = TSign web3 msg a -> r = Fulfilled (VSignature s) ->
    w' = js_exec (record_receipt (Some (mk_receipt a msg s)) ;; onSigned s) w1 ->
    settle_effect t r w1 w'
| se_aborted web3 msg a :
    t = TSign web3 msg a -> w' = js_exec onSignatureAborted w1 -> settle_effect t r w1 w'.

Lemma settle_cases t r m w1 :
  resume t r = Some m -> settle_effect t r w1 (js_exec (detached m) w1).
Proof.
  intros Hr.
  destruct t as [p| | |[p|]|web3 msg a], r as [[|id hc|[|x l]|s]|];
    simpl in Hr; simplify_eq;
    first [ by apply se_quiet; auto with page
          | apply se_quiet, quiet_detached; reflexivity
          | by eapply se_no_account
          | eapply se_accounts; [done | by apply js_exec_async_ok]
          | eapply se_signed; [done | done | by apply js_exec_async_ok]
          | eapply se_aborted; [done | by apply js_exec_async_ok] ].
Qed.

(** The page after lines 65-71 of fetchAccountData, whether line 72
    then makes a request or throws. *)
Lemma fetch_accounts_form w p l :
  let w' := js_exec (fetchAccountData_accounts p l) w in
  selectedAccount w' = head l /\ username (doc w') = js_string (head l) /\
  field_signature (doc w') = ""%string /\ btn_login_disabled (doc w') = true /\
  waiting_msg (doc w') = msg_waiting /\ loaded w' = loaded w.
Proof. unfold fetchAccountData_accounts, suspend. js_unfold. by destruct (head l). Qed.

(** ** The invariant of loaded pages *)

(** The form: either the button is disabled, the signature field empty and
    the status not "Thank you!", or the button is enabled, the status is
    "Thank you!", and the field holds the signature the wallet returned for
    a request over the page's challenge by some account. *)
Definition form_ok (w : world) : Prop :=
  (btn_login_disabled (doc w) = true /\ field_signature (doc w) = ""%string /\
   waiting_msg (doc w) <> msg_thanks)
  \/ (btn_login_disabled (doc w) = false /\ waiting_msg (doc w) = msg_thanks /\
      exists a, signed_for w =
        Some (mk_receipt a (field_signature_request (doc w)) (field_signature (doc w)))).

(** Every pending signature request is over the page's challenge. *)
Definition request_ok (w : world) (t : task) : Prop :=
  match t with TSign _ m _ => m = field_signature_request (doc w) | _ => True end.

(** The .username field shows the selected account once there is one. *)
Definition username_ok (w : world) : Prop :=
  forall a, selectedAccount w = Some a -> username (doc w) = a.

(** What holds of a loaded page besides its wiring. *)
Definition loaded_inv (w : world) : Prop :=
  form_ok w /\ Forall (request_ok w) (pending w) /\ username_ok w.

Definition page_inv (w : world) : Prop :=
  if loaded w then
    loaded_inv w /\ switch_listener (doc w) = true /\ is_Some (web3Modal w)
  else
    pending w = [] /\ wallets w = ∅ /\ switch_listener (doc w) = false /\
    selectedAccount w = None /\ web3Modal w = None.

(** The code that changes the form leaves the page's wiring alone. *)
Definition same_wiring (w w' : world) : Prop :=
  loaded w' = loaded w /\ switch_listener (doc w') = switch_listener (doc w) /\
  web3Modal w' = web3Modal w.

Section Inv.

Lemma page_inv_initial d : page_inv (initial_world d).
Proof. done. Qed.

(** [request_ok] looks at the challenge only. *)
Lemma request_ok_doc w w' t :
  field_signature_request (doc w') = field_signature_request (doc w) ->
  request_ok w t -> request_ok w' t.
Proof. destruct t; simpl; congruence. Qed.

Lemma requests_ok_doc w w' l :
  field_signature_request (doc w') = field_signature_request (doc w) ->
  Forall (request_ok w) l -> Forall (request_ok w') l.
Proof. intros Hd Hl. eapply Forall_impl; [exact Hl|]. intros t. by apply request_ok_doc. Qed.

Lemma loaded_inv_quiet w w' : loaded_inv w -> quiet w w' -> loaded_inv w'.
Proof.
  intros (Hf&Hr&Hu) (Hl&Hm&Ha&Hd&Hs&l&Hp&Hno).
  unfold loaded_inv, form_ok, username_ok in *. rewrite Hd, Hs, Ha, Hp.
  repeat split; auto. apply Forall_app_2.
  - apply (requests_ok_doc w); [by rewrite Hd | done].
  - eapply Forall_impl; [exact Hno|]. by intros [].
Qed.

Lemma page_inv_quiet w w' :
  loaded w = true -> page_inv w -> quiet w w' -> page_inv w'.
Proof.
  intros Hld Hinv Hq. pose proof Hq as (Hl&Hm&_&Hd&_).
  unfold page_inv in *. rewrite Hl, Hld in *. rewrite Hd, Hm.
  destruct Hinv as (Hi&?&?). split; [|done]. by apply (loaded_inv_quiet w).
Qed.

Lemma loaded_inv_remove w i : loaded_inv w -> loaded_inv (remove_pending i w).
Proof. intros (Hf&Hr&Hu). repeat split; auto. by apply Forall_delete. Qed.

(** fetchAccountData after getAccounts (lines 65-73). *)
Lemma loaded_inv_fetch_accounts w p l :
  loaded_inv w -> loaded_inv (js_exec (fetchAccountData_accounts p l) w) /\
                  same_wiring w (js_exec (fetchAccountData_accounts p l) w).
Proof.
  intros (Hf&Hr&Hu). unfold fetchAccountData_accounts, suspend. js_unfold.
  destruct (head l) as [a|]; repeat split; simpl;
    try (left; repeat split; apply msg_waiting_ne_thanks); try by apply (requests_ok_doc w).
  - apply Forall_app_2; [by apply (requests_ok_doc w) | by repeat constructor].
  - intros a' Ha. simpl in *. by simplify_eq.
  - by intros a' Ha.
Qed.

(** onSigned with the receipt of the request it answers (lines 76-81). *)
Lemma loaded_inv_signed w a s :
  loaded_inv w ->
  let w' := js_exec (record_receipt (Some (mk_receipt a (field_signature_request (doc w)) s)) ;;
                     onSigned s) w in
  loaded_inv w' /\ same_wiring w w'.
Proof.
  intros (Hf&Hr&Hu). js_unfold. repeat split; simpl; auto.
  right. repeat split. by exists a.
Qed.

(** onSignatureAborted (lines 83-88). *)
Lemma loaded_inv_aborted w :
  loaded_inv w -> loaded_inv (js_exec onSignatureAborted w) /\
                  same_wiring w (js_exec onSignatureAborted w).
Proof.
  intros (Hf&Hr&Hu). js_unfold. repeat split; simpl; auto.
  left. repeat split. apply msg_cannot_join_ne_thanks.
Qed.

Lemma loaded_inv_listener w : loaded_inv w -> loaded_inv (set_doc dom_set_switch_listener w).
Proof.
  intros (Hf&Hr&Hu). by repeat split.
Qed.

Lemma page_inv_wiring w w' :
  loaded w = true -> page_inv w -> loaded_inv w' -> same_wiring w w' -> page_inv w'.
Proof.
  intros Hl Hinv Hi (Hl'&Hsw&Hm). unfold page_inv in *. rewrite Hl', Hsw, Hm, Hl in *.
  by destruct Hinv as (_&?&?).
Qed.

(** The load handler (lines 124-128). *)
Lemma page_inv_load w :
  loaded w = false -> page_inv w -> page_inv (js_exec load_handler (set_loaded w)).
Proof.
  intros Hl Hinv. unfold page_inv in Hinv. rewrite Hl in Hinv.
  destruct Hinv as (Hp&_&_&Ha&_).
  set (w1 := js_exec init (set_loaded w)).
  assert (Hi1 : loaded_inv w1).
  { subst w1. js_unfold. rewrite Hp, Ha. repeat split; auto.
    - left. repeat split. apply msg_choose_ne_thanks.
    - by intros a. }
  pose proof (quiet_onConnect w1) as Hq.
  pose proof (loaded_inv_quiet _ _ Hi1 Hq) as Hi2.
  destruct Hq as (Hl2&Hm2&_&Hd2&_).
  rewrite load_handler_exec. fold w1.
  unfold page_inv. simpl. rewrite Hl2, Hm2.
  assert (Hw1 : loaded w1 = true /\ is_Some (web3Modal w1)) by (split; [done | by eexists]).
  destruct Hw1 as [-> ?]. split; [by apply loaded_inv_listener | done].
Qed.

(** Settling a pending promise (the [resume] of Flow.v). *)
Lemma page_inv_settle w i t r m :
  loaded w = true -> page_inv w -> pending w !! i = Some t -> resume t r = Some m ->
  page_inv (js_exec (detached m) (remove_pending i w)).
Proof.
  intros Hl Hinv Ht Hr. pose proof Hinv as Hinv0. unfold page_inv in Hinv. rewrite Hl in Hinv.
  destruct Hinv as (Hi&_&_).
  set (w1 := remove_pending i w).
  assert (Hi1 : loaded_inv w1) by (by apply loaded_inv_remove).
  assert (Hp1 : page_inv w1) by (apply (page_inv_wiring w); try done; by repeat split).
  assert (Hl1 : loaded w1 = true) by exact Hl.
  assert (Hq : forall w', quiet w1 w' -> page_inv w') by (intros; by eapply page_inv_quiet).
  assert (Hf : forall w', loaded_inv w' /\ same_wiring w1 w' -> page_inv w')
    by (intros ? [? ?]; by eapply (page_inv_wiring w1)).
  destruct (settle_cases t r m w1 Hr)
    as [Hq'|p l -> Heq|p -> -> Heq|web3 msg a s -> -> Heq|web3 msg a -> Heq];
    [by apply Hq| | | |]; rewrite Heq; apply Hf.
  - apply loaded_inv_fetch_accounts, Hi1.
  - exact (loaded_inv_fetch_accounts w1 (Some p) [] Hi1).
  - destruct Hi as (_&Hreq&_).
    pose proof (Forall_lookup_1 _ _ _ _ Hreq Ht) as Hm. simpl in Hm. subst msg.
    apply (loaded_inv_signed w1 a s Hi1).
  - apply loaded_inv_aborted, Hi1.
Qed.

End Inv.

Section Reachable.

Lemma page_inv_unloaded w :
  page_inv w -> loaded w = false ->
  pending w = [] /\ wallets w = ∅ /\ switch_listener (doc w) = false.
Proof. unfold page_inv. intros Hinv Hl. rewrite Hl in Hinv. by destruct Hinv as (?&?&?&_). Qed.

Lemma page_inv_step w e w' : page_inv w -> dispatch w e = Some w' -> page_inv w'.
Proof.
  intros Hinv Hd. destruct (loaded w) eqn:Hl.
  - destruct e as [| |p accts|i r]; simpl in Hd.
    + by rewrite Hl in Hd.
    + injection Hd as <-. case_match; [|done].
      eapply page_inv_quiet; eauto with page.
    + destruct (wallets w !! p) as [wl|]; simpl in Hd; [|done].
      case_match; [done|]. injection Hd as <-.
      eapply page_inv_quiet; eauto with page.
    + destruct (pending w !! i) as [t|] eqn:Ht; simpl in Hd; [|done].
      destruct (resume t r) as [m|] eqn:Hr; simpl in Hd; [|done].
      injection Hd as <-. by eapply page_inv_settle.
  - destruct (page_inv_unloaded w Hinv Hl) as (Hp&Hw&Hsw).
    destruct e as [| |p accts|i r]; simpl in Hd.
    + rewrite Hl in Hd. injection Hd as <-. by apply page_inv_load.
    + rewrite Hsw in Hd. by injection Hd as <-.
    + by rewrite Hw, lookup_empty in Hd.
    + by rewrite Hp in Hd.
Qed.

Theorem reachable_page_inv w : reachable w -> page_inv w.
Proof. apply reachable_ind; [apply page_inv_initial | intros; by eapply page_inv_step]. Qed.

End Reachable.

(** ** What the invariant says about the form *)

(** C1: on a loaded page the login button is enabled only while the status
    reads "Thank you!" and the signature field holds the signature the
    wallet returned for a personal-sign request over the page's challenge
    (#field-signature-request) by some account. *)
Theorem login_enabled_receipt w :
  reachable w -> loaded w = true -> btn_login_disabled (doc w) = false ->
  waiting_msg (doc w) = msg_thanks /\
  exists a, signed_for w =
    Some (mk_receipt a (field_signature_request (doc w)) (field_signature (doc w))).
Proof.
  intros Hr Hl Hd. pose proof (reachable_page_inv w Hr) as Hinv.
  unfold page_inv in Hinv. rewrite Hl in Hinv. destruct Hinv as ((Hf&_&_)&_&_).
  destruct Hf as [(Hd'&_&_)|(_&Hm&Ha)]; [congruence | done].
Qed.

Lemma login_enabled_receipt_witness :
  waiting_msg (doc (sample_run happy_trace)) = msg_thanks /\
  exists a, signed_for (sample_run happy_trace) =
    Some (mk_receipt a (field_signature_request (doc (sample_run happy_trace)))
                       (field_signature (doc (sample_run happy_trace)))).
Proof.
  apply login_enabled_receipt; [|vm_compute; reflexivity | vm_compute; reflexivity].
  apply (run_reachable sample_page happy_trace). vm_compute. reflexivity.
Defined.

(** C2: on a loaded page a disabled login button goes with an empty
    signature field and a status other than "Thank you!". *)
Theorem login_disabled_cleared w :
  reachable w -> loaded w = true -> btn_login_disabled (doc w) = true ->
  field_signature (doc w) = ""%string /\ waiting_msg (doc w) <> msg_thanks.
Proof.
  intros Hr Hl Hd. pose proof (reachable_page_inv w Hr) as Hinv.
  unfold page_inv in Hinv. rewrite Hl in Hinv. destruct Hinv as ((Hf&_&_)&_&_).
  destruct Hf as [(_&Hs&Hm)|(Hd'&_&_)]; [done | congruence].
Qed.

Lemma login_disabled_cleared_witness :
  field_signature (doc (sample_run [EvLoad])) = ""%string /\
  waiting_msg (doc (sample_run [EvLoad])) <> msg_thanks.
Proof.
  apply login_disabled_cleared; [|vm_compute; reflexivity | vm_compute; reflexivity].
  apply (run_reachable sample_page [EvLoad]). vm_compute. reflexivity.
Defined.

(** C3: the .username field always shows the selected account, once
    fetchAccountData has selected one. *)
Theorem username_shows_account w a :
  reachable w -> selectedAccount w = Some a -> username (doc w) = a.
Proof.
  intros Hr Ha. pose proof (reachable_page_inv w Hr) as Hinv. unfold page_inv in Hinv.
  destruct (loaded w).
  - destruct Hinv as ((_&_&Hu)&_&_). by apply Hu.
  - destruct Hinv as (_&_&_&Hs&_). congruence.
Qed.

Lemma username_shows_account_witness :
  username (doc (sample_run happy_trace)) = "0xABC"%string.
Proof.
  apply username_shows_account; [|vm_compute; reflexivity].
  apply (run_reachable sample_page happy_trace). vm_compute. reflexivity.
Defined.
