(* ===== verification/Scenarios.v ===== *)
(** * Whole runs of the widget

    Runs of the page as event traces.  A symbolic run of the connect, fetch
    and sign chain from any page ends with the signature in the form.  A
    rejected signature always disables the button.  Switching accounts
    closes the held provider before the dialog opens.  Concrete runs then
    show what the interleavings of the [async] functions allow: a signature
    that arrives for an account no longer selected, and listeners that
    pile up on an injected provider.  An empty account list and the
    rejection of each awaited promise end as the last section says. *)

From S2P Require Import Spec2Rocq Js Page Flow EventLoop Invariants.
From stdpp Require Import base tactics list gmap strings.

(** Compute a run step by step on a symbolic page: unfold the
    development's definitions only, never the map operations or the
    status texts. *)
Ltac run_simpl :=
  repeat progress (
    cbv beta iota zeta delta [run dispatch resume onConnect openDialog onConnect_closed
      onConnect_cleared onConnect_connected fetchAccountData fetchAccountData_accounts
      receiveProvider subscribeAccountsChanged providerHasClose closeProvider suspend
      record_receipt init onSigned onSignatureAborted setFieldSignature setLoginDisabled
      setWaitingMsg setUsername load_handler accountsChangedListener js_repeat
      js_exec js_async mbind js_mbind mret js_mret js_gets js_modify js_throw
      set_doc set_loaded set_web3Modal set_provider set_selectedAccount set_wallets
      set_pending set_signed_for set_uncaught report_uncaught detached
      dom_set_field_signature dom_set_disabled
      dom_set_waiting_msg dom_set_username dom_set_switch_listener remove_pending
      option_bind fst snd head js_string
      loaded web3Modal provider selectedAccount doc wallets pending signed_for uncaught
      field_signature btn_login_disabled waiting_msg username field_signature_request
      switch_listener has_close closed listeners] in *;
    autorewrite with page_rw in * ).

Section HappyPath.

(** C4: from any page whose switch link is wired, with no provider held
    and the modal built, the chain "click switch account, the dialog
    returns a new provider [id], getAccounts returns [a :: rest], the
    wallet signs with [s]" ends with [s] in the signature field, the
    button enabled, the status "Thank you!", [a] selected and shown, and
    the receipt of the request over the page's challenge by [a]. *)
Theorem connect_fetch_sign (w : world) (md : modal) (id : nat) (hc : bool)
    (a : string) (rest : list string) (s : string) :
  switch_listener (doc w) = true -> provider w = None -> web3Modal w = Some md ->
  wallets w !! id = None ->
  let n := length (pending w) in
  exists w',
    run w [EvClickSwitch; EvSettle n (Fulfilled (VProvider id hc));
           EvSettle n (Fulfilled (VAccounts (a :: rest)));
           EvSettle n (Fulfilled (VSignature s))] = Some w' /\
    field_signature (doc w') = s /\ btn_login_disabled (doc w') = false /\
    waiting_msg (doc w') = msg_thanks /\ username (doc w') = a /\
    selectedAccount w' = Some a /\ provider w' = Some id /\
    pending w' = pending w /\
    signed_for w' = Some (mk_receipt a (field_signature_request (doc w)) s).
Proof.
  intros Hsw Hp Hm Hid n. subst n. destruct w as [l m p sa d ws pd sf uc]; simpl in *.
  subst. unfold run, dispatch. rewrite Hsw. run_simpl.
  unfold receiveProvider, subscribeAccountsChanged, fetchAccountData,
    fetchAccountData_accounts, record_receipt, suspend in *.
  run_simpl. rewrite Hid. run_simpl.
  eexists. split; [reflexivity|]. by repeat split.
Qed.

End HappyPath.

(** The page right after load: the load handler's own onConnect waits for
    the dialog. *)
Definition loaded_sample : world := sample_run [EvLoad].

Lemma connect_fetch_sign_witness :
  exists w',
    run loaded_sample
      [EvClickSwitch; EvSettle 1 (Fulfilled (VProvider 2 true));
       EvSettle 1 (Fulfilled (VAccounts ["0xABC"; "0xDEF"]));
       EvSettle 1 (Fulfilled (VSignature "0xSIGNED"))] = Some w' /\
    field_signature (doc w') = "0xSIGNED" /\ btn_login_disabled (doc w') = false /\
    waiting_msg (doc w') = msg_thanks /\ username (doc w') = "0xABC" /\
    selectedAccount w' = Some "0xABC" /\ provider w' = Some 2 /\
    pending w' = pending loaded_sample /\
    signed_for w' = Some (mk_receipt "0xABC" (field_signature_request (doc loaded_sample)) "0xSIGNED").
Proof.
  apply (connect_fetch_sign loaded_sample (mk_modal false (mk_provider_options "DUMMY-ID")));
    vm_compute; reflexivity.
Defined.

Section Rejection.

(** C5: whatever the page looked like, a rejected signature request
    empties the signature field, disables the button and asks the user to
    switch accounts; only the settled request leaves the pool. *)
Theorem sign_rejected_disables (w : world) i web3 msg acct :
  pending w !! i = Some (TSign web3 msg acct) ->
  exists w', dispatch w (EvSettle i Rejected) = Some w' /\
    field_signature (doc w') = "" /\ btn_login_disabled (doc w') = true /\
    waiting_msg (doc w') = msg_cannot_join /\
    pending w' = delete i (pending w) /\ selectedAccount w' = selectedAccount w /\
    provider w' = provider w.
Proof.
  intros Hi. simpl. rewrite Hi. simpl. eexists. split; [done|]. js_unfold. by repeat split.
Qed.

Lemma sign_rejected_disables_witness :
  exists w', dispatch (sample_run (take 3 happy_trace)) (EvSettle 0 Rejected) = Some w' /\
    field_signature (doc w') = "" /\ btn_login_disabled (doc w') = true /\
    waiting_msg (doc w') = msg_cannot_join /\
    pending w' = delete 0 (pending (sample_run (take 3 happy_trace))) /\
    selectedAccount w' = selectedAccount (sample_run (take 3 happy_trace)) /\
    provider w' = provider (sample_run (take 3 happy_trace)).
Proof.
  apply (sign_rejected_disables _ 0 (Some 1) "hello" "0xABC").
  vm_compute. reflexivity.
Defined.

End Rejection.

(** ** The stale signature race

    "accountsChanged" re-runs fetchAccountData while the signature request
    of the previous account is still open.  Nothing cancels or ignores that
    request: when the wallet answers it, onSigned enables the button with the
    old account's signature while the form shows the new account. *)
Definition race_trace : list event :=
  [EvLoad; EvSettle 0 (Fulfilled (VProvider 1 true));
   EvSettle 0 (Fulfilled (VAccounts ["0xABC"]));
   EvAccountsChanged 1 ["0xDEF"];
   EvSettle 1 (Fulfilled (VAccounts ["0xDEF"]));
   EvSettle 0 (Fulfilled (VSignature "0xSIG-ABC"))].

(** C6: the spec's invariant "the login control is enabled iff the
    signature corresponds to the currently selected account" fails: a
    reachable page has the button enabled, "0xDEF" selected and shown, and
    in the signature field the signature "0xABC" gave. *)
Theorem stale_signature_enables_login :
  exists evs w, run (initial_world sample_page) evs = Some w /\
    btn_login_disabled (doc w) = false /\
    selectedAccount w = Some "0xDEF" /\ username (doc w) = "0xDEF" /\
    signed_for w = Some (mk_receipt "0xABC" "hello" (field_signature (doc w))).
Proof. exists race_trace. eexists. split; [vm_compute; reflexivity|]. by vm_compute. Qed.

(** ** Runs without stale signatures

    [sign_fresh w e]: if [e] delivers a signature, the request it answers
    was made for the account selected now.  Along traces made of such
    events the spec's invariant holds. *)
Definition sign_fresh (w : world) (e : event) : Prop :=
  match e with
  | EvSettle i (Fulfilled (VSignature _)) =>
      match pending w !! i with
      | Some (TSign _ _ a) => Some a = selectedAccount w
      | _ => True
      end
  | _ => True
  end.

Fixpoint fresh_trace (w : world) (evs : list event) : Prop :=
  match evs with
  | [] => True
  | e :: evs =>
      sign_fresh w e /\ match dispatch w e with Some w' => fresh_trace w' evs | None => True end
  end.

(** The spec's invariant: an enabled button goes with the signature of the
    selected account. *)
Definition account_consistent (w : world) : Prop :=
  btn_login_disabled (doc w) = false ->
  exists r, signed_for w = Some r /\ selectedAccount w = Some (rc_account r) /\
            field_signature (doc w) = rc_signature r.

Section Fresh.

Lemma consistent_quiet w w' : account_consistent w -> quiet w w' -> account_consistent w'.
Proof.
  intros Hc (_&_&Ha&Hd&Hs&_). unfold account_consistent. rewrite Ha, Hd, Hs. exact Hc.
Qed.

Lemma consistent_disabled w : btn_login_disabled (doc w) = true -> account_consistent w.
Proof. intros H H'. congruence. Qed.

Lemma consistent_step w e w' :
  account_consistent w -> sign_fresh w e -> dispatch w e = Some w' -> account_consistent w'.
Proof.
  intros Hc Hf Hd. destruct e as [| |p accts|i r]; simpl in Hd.
  - destruct (loaded w); [done|]. injection Hd as <-.
    apply consistent_disabled.
    rewrite load_handler_exec.
    destruct (quiet_onConnect (js_exec init (set_loaded w))) as (_&_&_&Hdoc&_).
    simpl. rewrite Hdoc. reflexivity.
  - injection Hd as <-. case_match; [|done]. eapply consistent_quiet; eauto with page.
  - destruct (wallets w !! p) as [wl|]; simpl in Hd; [|done].
    case_match; [done|]. injection Hd as <-. eapply consistent_quiet; eauto with page.
  - destruct (pending w !! i) as [t|] eqn:Ht; simpl in Hd; [|done].
    destruct (resume t r) as [m|] eqn:Hr; simpl in Hd; [|done]. injection Hd as <-.
    assert (Hc1 : account_consistent (remove_pending i w)) by exact Hc.
    simpl in Hf. rewrite Ht in Hf.
    destruct (settle_cases t r m (remove_pending i w) Hr)
      as [Hq|p l -> ->|p -> -> ->|web3 msg a s -> -> ->|web3 msg a -> ->].
    + by eapply consistent_quiet.
    + apply consistent_disabled, fetch_accounts_form.
    + apply consistent_disabled, fetch_accounts_form.
    + simpl in Hf. intros _. eexists. split; [reflexivity|]. by split.
    + by apply consistent_disabled.
Qed.

(** C7: along a trace in which every delivered signature answers a
    request for the account selected at that moment, a page whose button
    is enabled only with the selected account's signature stays so. *)
Theorem fresh_trace_consistent w evs w' :
  account_consistent w -> fresh_trace w evs -> run w evs = Some w' ->
  account_consistent w'.
Proof.
  revert w. induction evs as [|e evs IH]; intros w Hc Hf Hr; simpl in *.
  - by injection Hr as <-.
  - destruct Hf as [He Hf]. destruct (dispatch w e) as [w1|] eqn:Hd; [|done].
    apply (IH w1); [by eapply consistent_step | done | done].
Qed.

Lemma fresh_trace_consistent_witness :
  account_consistent (sample_run happy_trace).
Proof.
  apply (fresh_trace_consistent (initial_world sample_page) happy_trace).
  - apply consistent_disabled. reflexivity.
  - vm_compute. repeat split.
  - vm_compute. reflexivity.
Defined.

End Fresh.

(** ** Switching accounts *)
Section Switch.
Context (w : world) (p : nat) (wl : wallet) (md : modal).
Hypothesis Hsw : switch_listener (doc w) = true.
Hypothesis Hp : provider w = Some p.
Hypothesis Hwl : wallets w !! p = Some wl.
Hypothesis Hclose : has_close wl = true.
Hypothesis Hm : web3Modal w = Some md.

Let n := length (pending w).

(** C8: with a provider that has [close] held, a click on the switch
    link calls [close()] on it and waits for it, without opening the
    dialog.  Once [close()] and [clearCachedProvider()] have resumed,
    the provider is dropped and the dialog is open.  The form is
    untouched throughout. *)
Theorem switch_closes_provider :
  exists w1 w3,
    dispatch w EvClickSwitch = Some w1 /\
    pending w1 = pending w ++ [TConnectClose p] /\
    wallets w1 !! p = Some (mk_wallet true true (listeners wl)) /\
    run w1 [EvSettle n (Fulfilled VUndefined); EvSettle n (Fulfilled VUndefined)] = Some w3 /\
    provider w3 = None /\ pending w3 = pending w ++ [TConnectDialog] /\
    doc w3 = doc w /\ signed_for w3 = signed_for w.
Proof.
  subst n. destruct w as [l m0 p0 sa d ws pd sf uc]; simpl in *. subst.
  unfold dispatch. rewrite Hsw. unfold onConnect, providerHasClose, closeProvider in *.
  run_simpl. rewrite Hwl, Hclose. run_simpl.
  eexists _, _. split; [reflexivity|]. split; [reflexivity|].
  split; [simpl; rewrite lookup_alter_eq, Hwl; simpl; by rewrite Hclose|].
  unfold onConnect_closed, onConnect_cleared, openDialog, suspend. run_simpl.
  split; [reflexivity|]. by repeat split.
Qed.

(** C9: if the user then cancels the dialog, the earlier provider stays
    closed and dropped, while the form, enabled button included, stays
    as it was. *)
Theorem switch_cancelled_drops_provider :
  exists w4,
    run w [EvClickSwitch; EvSettle n (Fulfilled VUndefined);
           EvSettle n (Fulfilled VUndefined); EvSettle n Rejected] = Some w4 /\
    provider w4 = None /\ closed <$> (wallets w4 !! p) = Some true /\
    pending w4 = pending w /\ doc w4 = doc w /\ signed_for w4 = signed_for w /\
    selectedAccount w4 = selectedAccount w.
Proof.
  subst n. destruct w as [l m0 p0 sa d ws pd sf uc]; simpl in *. subst.
  run_simpl. rewrite Hsw, Hwl, Hclose. run_simpl.
  eexists. split; [reflexivity|]. cbv beta iota zeta. rewrite lookup_alter_eq, Hwl.
  by repeat split.
Qed.

End Switch.

(** After the happy path, provider 1 (with [close]) is held. *)
Definition switch_sample : world := sample_run happy_trace.

Lemma switch_closes_provider_witness :
  exists w1 w3,
    dispatch switch_sample EvClickSwitch = Some w1 /\
    pending w1 = pending switch_sample ++ [TConnectClose 1] /\
    wallets w1 !! 1 = Some (mk_wallet true true (listeners (mk_wallet true false 1))) /\
    run w1 [EvSettle (length (pending switch_sample)) (Fulfilled VUndefined);
            EvSettle (length (pending switch_sample)) (Fulfilled VUndefined)] = Some w3 /\
    provider w3 = None /\ pending w3 = pending switch_sample ++ [TConnectDialog] /\
    doc w3 = doc switch_sample /\ signed_for w3 = signed_for switch_sample.
Proof.
  apply (switch_closes_provider switch_sample 1 (mk_wallet true false 1)
           (mk_modal false (mk_provider_options "DUMMY-ID"))); vm_compute; reflexivity.
Defined.

Lemma switch_cancelled_drops_provider_witness :
  exists w4,
    run switch_sample
      [EvClickSwitch; EvSettle (length (pending switch_sample)) (Fulfilled VUndefined);
       EvSettle (length (pending switch_sample)) (Fulfilled VUndefined);
       EvSettle (length (pending switch_sample)) Rejected] = Some w4 /\
    provider w4 = None /\ closed <$> (wallets w4 !! 1) = Some true /\
    pending w4 = pending switch_sample /\ doc w4 = doc switch_sample /\
    signed_for w4 = signed_for switch_sample /\
    selectedAccount w4 = selectedAccount switch_sample.
Proof.
  apply (switch_cancelled_drops_provider switch_sample 1 (mk_wallet true false 1)
           (mk_modal false (mk_provider_options "DUMMY-ID"))); vm_compute; reflexivity.
Defined.

(** ** "accountsChanged" listeners *)

(** Each listener runs fetchAccountData, which builds its Web3 on the
    provider held now, not on the object that fired the event. *)
Lemma accountsChanged_listeners_exec (w : world) k accts :
  js_exec (js_repeat k (accountsChangedListener accts)) w =
  set_pending (pending w ++ replicate k (TFetchAccounts (provider w))) w.
Proof.
  revert w. induction k as [|k IH]; intros w; simpl.
  - destruct w. simpl. by rewrite app_nil_r.
  - unfold js_exec in *. js_unfold. rewrite IH. simpl. by rewrite <- app_assoc.
Qed.

(** C10: an "accountsChanged" event of an open provider object [p] with
    [k] listeners starts [k] account fetches.  Each fetch queries the
    provider the script holds now, which need not be [p].  The form is not
    touched until an answer arrives. *)
Theorem accounts_changed_fetch_per_listener (w : world) p wl accts :
  wallets w !! p = Some wl -> closed wl = false ->
  exists w', dispatch w (EvAccountsChanged p accts) = Some w' /\
    pending w' = pending w ++ replicate (listeners wl) (TFetchAccounts (provider w)) /\
    doc w' = doc w /\ provider w' = provider w /\ wallets w' = wallets w.
Proof.
  intros Hp Hc. simpl. rewrite Hp. simpl. rewrite Hc.
  eexists. split; [reflexivity|]. by rewrite accountsChanged_listeners_exec.
Qed.

Lemma accounts_changed_fetch_per_listener_witness :
  exists w', dispatch (sample_run happy_trace) (EvAccountsChanged 1 ["0xDEF"]) = Some w' /\
    pending w' = pending (sample_run happy_trace) ++
                 replicate 1 (TFetchAccounts (provider (sample_run happy_trace))) /\
    doc w' = doc (sample_run happy_trace) /\ provider w' = provider (sample_run happy_trace) /\
    wallets w' = wallets (sample_run happy_trace).
Proof.
  apply (accounts_changed_fetch_per_listener _ 1 (mk_wallet true false 1));
    vm_compute; reflexivity.
Defined.

(** ** Concurrency findings *)

(** An injected provider (window.ethereum) has no [close], and the dialog
    hands out the same object every time. *)
Definition injected_trace : list event :=
  [EvLoad; EvSettle 0 (Fulfilled (VProvider 7 false));
   EvSettle 0 (Fulfilled (VAccounts ["0xABC"]));
   EvSettle 0 (Fulfilled (VSignature "0xSIG1"));
   EvClickSwitch; EvSettle 0 (Fulfilled (VProvider 7 false));
   EvSettle 0 (Fulfilled (VAccounts ["0xABC"]));
   EvSettle 0 (Fulfilled (VSignature "0xSIG2"))].

(** C11: every switch to the same injected provider adds one more
    "accountsChanged" listener, because onConnect neither closes that
    provider nor removes the listener.  After two connections one account
    change fires two fetches, and so two signature prompts follow. *)
Theorem injected_provider_listeners_pile_up :
  exists w w', run (initial_world sample_page) injected_trace = Some w /\
    wallets w !! 7 = Some (mk_wallet false false 2) /\
    dispatch w (EvAccountsChanged 7 ["0xDEF"]) = Some w' /\
    pending w' = [TFetchAccounts (Some 7); TFetchAccounts (Some 7)].
Proof. do 2 eexists. split; [vm_compute; reflexivity|]. split; [reflexivity|]. by vm_compute. Qed.

(** ** An empty account list *)

(** C14: when getAccounts resolves to an empty list, [accounts[0]] is
    undefined.  Lines 65-71 still run: the .username field shows
    "undefined", the field is cleared, the button disabled, and the status
    says a signature is awaited.  Then web3's [personal.sign] throws on the
    undefined account before any request exists: no signature is asked for,
    the page waits for one that never comes, and the console logs the
    error as unhandled. *)
Theorem empty_accounts_undefined (w : world) i p :
  pending w !! i = Some (TFetchAccounts (Some p)) ->
  exists w', dispatch w (EvSettle i (Fulfilled (VAccounts []))) = Some w' /\
    selectedAccount w' = None /\ username (doc w') = "undefined" /\
    field_signature (doc w') = "" /\ btn_login_disabled (doc w') = true /\
    waiting_msg (doc w') = msg_waiting /\
    pending w' = delete i (pending w) /\
    uncaught w' = uncaught w ++ [InvalidAddress].
Proof.
  intros Hi. run_simpl. rewrite Hi. run_simpl. eexists. split; [reflexivity|].
  cbv beta iota zeta. by repeat split.
Qed.

Lemma empty_accounts_undefined_witness :
  exists w', dispatch (sample_run (take 2 happy_trace)) (EvSettle 0 (Fulfilled (VAccounts []))) = Some w' /\
    selectedAccount w' = None /\ username (doc w') = "undefined" /\
    field_signature (doc w') = "" /\ btn_login_disabled (doc w') = true /\
    waiting_msg (doc w') = msg_waiting /\
    pending w' = delete 0 (pending (sample_run (take 2 happy_trace))) /\
    uncaught w' = uncaught (sample_run (take 2 happy_trace)) ++ [InvalidAddress].
Proof. apply (empty_accounts_undefined _ 0 1). vm_compute. reflexivity. Defined.

(** ** Error paths *)

(** C17: what a rejected awaited promise does, await by await.  A
    cancelled dialog is caught by the try of lines 106-111: only the
    activation leaves the pool.  A rejected close() or getAccounts() is
    rethrown outside any try: the page is unchanged, and the console logs
    an unhandled rejection.  A rejected signature runs onSignatureAborted
    and logs nothing.  clearCachedProvider() cannot reject. *)
Theorem rejection_outcomes (w : world) i t :
  pending w !! i = Some t -> t <> TConnectClear ->
  exists w', dispatch w (EvSettle i Rejected) = Some w' /\
    match t with
    | TConnectDialog => w' = remove_pending i w
    | TConnectClose _ | TFetchAccounts _ => w' = report_uncaught Rejection (remove_pending i w)
    | TSign _ _ _ => w' = js_exec onSignatureAborted (remove_pending i w)
    | TConnectClear => False
    end.
Proof.
  intros Ht Hn. simpl. rewrite Ht.
  destruct t as [p| | |[p|]|web3 msg a]; simpl; try done; by eexists.
Qed.

Lemma rejection_outcomes_witness :
  exists w', dispatch loaded_sample (EvSettle 0 Rejected) = Some w' /\
    w' = remove_pending 0 loaded_sample.
Proof. apply (rejection_outcomes loaded_sample 0 TConnectDialog); vm_compute; [reflexivity | discriminate]. Defined.
