(* ===== verification/Termination.v ===== *)
(** * Termination of the asynchronous chains

    Each suspended activation has a rank: how many more [await]s its chain
    can still reach (close, clear, dialog, accounts, signature).  Settling
    an activation removes it and adds at most one activation of smaller
    rank.  So the sum of the ranks of the pool, [pool_measure], decreases
    with every settlement.  Only a user click or an "accountsChanged"
    notification starts new work.  [drain] settles the pool's oldest
    activation until the pool is empty; [pool_measure] is enough fuel. *)

From S2P Require Import Spec2Rocq Js Page Flow EventLoop Invariants.
From stdpp Require Import base tactics list gmap strings.

Definition rank (t : task) : nat :=
  match t with
  | TConnectClose _ => 5
  | TConnectClear => 4
  | TConnectDialog => 3
  | TFetchAccounts _ => 2
  | TSign _ _ _ => 1
  end.

Definition pool_measure (w : world) : nat := sum_list_with rank (pending w).

(** A settlement every activation accepts: [clearCachedProvider()]'s await
    resumes with undefined, every other awaited promise may reject. *)
Definition default_settlement (t : task) : settled value :=
  match t with TConnectClear => Fulfilled VUndefined | _ => Rejected end.

Fixpoint drain (fuel : nat) (w : world) : world :=
  match fuel with
  | 0 => w
  | S f =>
      match pending w with
      | [] => w
      | t :: _ =>
          match dispatch w (EvSettle 0 (default_settlement t)) with
          | Some w' => drain f w'
          | None => w
          end
      end
  end.

Section Measure.

(** The code that runs after an [await] adds at most one activation, of
    smaller rank. *)
Lemma resume_pending t r m w :
  resume t r = Some m ->
  exists l, pending (js_exec m w) = pending w ++ l /\ sum_list_with rank l < rank t.
Proof.
  intros Hr.
  destruct t as [p| | |[p|]|web3 msg a], r as [[|id hc|[|x l]|s]|];
    simpl in Hr; simplify_eq;
    flow_unfold;
    try (destruct (web3Modal w));
    try (destruct (wallets w !! id));
    simpl; eexists; (split; [first [reflexivity | symmetry; apply app_nil_r] | simpl; lia]).
Qed.

Lemma resume_default t : is_Some (resume t (default_settlement t)).
Proof. destruct t as [| | |[]|? ? ?]; simpl; by eexists. Qed.

(** Settling the [i]-th activation with [r] replaces its rank by less. *)
Lemma pool_measure_settle w i r w' :
  dispatch w (EvSettle i r) = Some w' -> pool_measure w' < pool_measure w.
Proof.
  simpl. destruct (pending w !! i) as [t|] eqn:Ht; simpl; [|done].
  destruct (resume t r) as [m|] eqn:Hr; simpl; [|done]. intros [= <-].
  destruct (resume_pending t r m (remove_pending i w) Hr) as (l&Hl&Hlt).
  unfold pool_measure. rewrite pending_detached, Hl, sum_list_with_app.
  pose proof (sum_list_with_delete rank (pending w) i t Ht). simpl. lia.
Qed.

(** C12: every settlement of a pending promise strictly decreases the
    measure of the pool. *)
Theorem settle_decreases_measure w i r w' :
  dispatch w (EvSettle i r) = Some w' -> pool_measure w' < pool_measure w.
Proof. apply pool_measure_settle. Qed.

Lemma settle_decreases_measure_witness :
  pool_measure (sample_run (take 2 happy_trace)) <
  pool_measure (sample_run [EvLoad]).
Proof.
  apply (settle_decreases_measure _ 0 (Fulfilled (VProvider 1 true))).
  vm_compute. reflexivity.
Defined.

(** C13: from any page the pending promises can all be settled: with the
    pool measure as fuel, [drain] reaches a page with an empty pool by
    steps of the event loop. *)
Theorem drain_empties_pool w fuel :
  pool_measure w <= fuel ->
  star step w (drain fuel w) /\ pending (drain fuel w) = [].
Proof.
  revert w. induction fuel as [|fuel IH]; intros w Hf; cbn [drain].
  - unfold pool_measure in Hf. destruct (pending w) as [|t l]; [split; [apply star_refl | done]|].
    simpl in Hf. destruct t; simpl in Hf; lia.
  - destruct (pending w) as [|t l] eqn:Hp; [split; [apply star_refl | done]|].
    destruct (resume_default t) as [m Hm].
    assert (Hd : dispatch w (EvSettle 0 (default_settlement t)) =
                 Some (js_exec (detached m) (remove_pending 0 w)))
      by (simpl; rewrite Hp; simpl; by rewrite Hm).
    rewrite Hd.
    pose proof (pool_measure_settle _ _ _ _ Hd) as Hlt.
    destruct (IH (js_exec (detached m) (remove_pending 0 w))) as [Hs He]; [lia|].
    split; [|done]. eapply star_step; [by eexists | exact Hs].
Qed.

Lemma drain_empties_pool_witness :
  star step (sample_run [EvLoad]) (drain 3 (sample_run [EvLoad])) /\
  pending (drain 3 (sample_run [EvLoad])) = [].
Proof. apply drain_empties_pool. vm_compute. lia. Defined.

End Measure.
