(* ===== verification/Refinement.v ===== *)
(** * The spec's phase machine and its refinement by the page

    Section 4.1 of the spec describes the widget as a state machine:
    Uninitialized, AwaitingAccountChoice, AccountSelected(unsigned),
    AccountSelected(signed), looping back to AwaitingAccountChoice on a
    switch of account or an account change.  [widget_spec] is that machine.
    [phase_of] reads the phase off a page: not loaded, or which status text
    #waiting-for-signature-msg shows.  [code_phase_step] is the part of the
    spec's machine the code actually uses.  Every step of the event loop is
    such a step or keeps the phase, and so every event of a reachable page
    is a step of the spec's machine or a stutter (C15).  The loop back to
    AwaitingAccountChoice is never taken (C16). *)

From S2P Require Import Spec2Rocq Js Page Flow EventLoop Invariants.
From stdpp Require Import base tactics list gmap strings.

Inductive phase := Uninitialized | AwaitingAccountChoice | AccountUnsigned | AccountSigned.

#[export] Instance phase_eq_dec : EqDecision phase.
Proof. solve_decision. Defined.

Definition account_phase (p : phase) : Prop := p = AccountUnsigned \/ p = AccountSigned.

(** The spec's machine (section 4.1 and the failure semantics of 4.1). *)
Inductive spec_step : phase -> phase -> Prop :=
| sp_initialize : spec_step Uninitialized AwaitingAccountChoice
| sp_select : spec_step AwaitingAccountChoice AccountUnsigned
| sp_sign : spec_step AccountUnsigned AccountSigned
| sp_reselect p : account_phase p -> spec_step p AccountUnsigned
| sp_switch p : account_phase p -> spec_step p AwaitingAccountChoice.

Definition widget_spec : machine := mk_machine phase (fun p => p = Uninitialized) spec_step.

(** The page as a machine: the event loop from a freshly rendered page. *)
Definition widget : machine := mk_machine world (fun w => exists d, w = initial_world d) step.

Definition phase_of (w : world) : phase :=
  if loaded w then
    if decide (waiting_msg (doc w) = msg_choose) then AwaitingAccountChoice
    else if decide (waiting_msg (doc w) = msg_thanks) then AccountSigned
    else AccountUnsigned
  else Uninitialized.

(** The phase changes the code makes: no loop back to the account choice. *)
Inductive code_phase_step : phase -> phase -> Prop :=
| cp_initialize : code_phase_step Uninitialized AwaitingAccountChoice
| cp_select p : p <> Uninitialized -> code_phase_step p AccountUnsigned
| cp_sign p : account_phase p -> code_phase_step p AccountSigned.

(** While the page asks to choose an account, no signature is requested. *)
Definition phase_inv (w : world) : Prop :=
  page_inv w /\ (phase_of w = AwaitingAccountChoice -> Forall no_sign (pending w)).

Lemma msg_waiting_ne_choose : msg_waiting <> msg_choose.
Proof. discriminate. Qed.
Lemma msg_thanks_ne_choose : msg_thanks <> msg_choose.
Proof. discriminate. Qed.
Lemma msg_cannot_join_ne_choose : msg_cannot_join <> msg_choose.
Proof. discriminate. Qed.

Section Phases.

Lemma code_phase_spec p p' : code_phase_step p p' -> p' = p \/ spec_step p p'.
Proof.
  intros [|q Hq|q Hq]; [right; constructor| |].
  - destruct q; [done | right; apply sp_select | by left | right; apply sp_reselect; by right].
  - destruct Hq as [-> | ->]; [right; apply sp_sign | by left].
Qed.

Lemma code_phase_account p p' : account_phase p -> code_phase_step p p' -> account_phase p'.
Proof. intros Hp Hs. destruct Hs; [by destruct Hp | by left | by right]. Qed.

Lemma phase_of_same w w' :
  loaded w' = loaded w -> waiting_msg (doc w') = waiting_msg (doc w) -> phase_of w' = phase_of w.
Proof. intros Hl Hm. unfold phase_of. by rewrite Hl, Hm. Qed.

Lemma phase_of_report e w : phase_of (report_uncaught e w) = phase_of w.
Proof. reflexivity. Qed.

Lemma phase_of_loaded w : loaded w = true -> phase_of w <> Uninitialized.
Proof. unfold phase_of. intros ->. by repeat case_decide. Qed.

(** The phase a page is in after each status text. *)
Lemma phase_of_msg w m :
  loaded w = true -> waiting_msg (doc w) = m -> m <> msg_choose ->
  phase_of w = if decide (m = msg_thanks) then AccountSigned else AccountUnsigned.
Proof. intros Hl <- Hc. unfold phase_of. rewrite Hl. by case_decide. Qed.

Lemma phase_inv_quiet w w' :
  loaded w = true -> phase_inv w -> quiet w w' -> phase_inv w'.
Proof.
  intros Hl [Hp Hn] Hq. pose proof Hq as (Hl'&_&_&Hd&_&l&Hpend&Hno).
  split; [by eapply page_inv_quiet|].
  rewrite (phase_of_same w w'), Hpend; [|done|by rewrite Hd].
  intros Ha. apply Forall_app_2; auto.
Qed.

(** The phase after each of the three functions that write the status. *)
Lemma phase_after_fetch w p l :
  loaded w = true -> phase_of (js_exec (fetchAccountData_accounts p l) w) = AccountUnsigned.
Proof.
  intros Hl. destruct (fetch_accounts_form w p l) as (_&_&_&_&Hm&Hl').
  rewrite (phase_of_msg _ msg_waiting); [|by rewrite Hl'|exact Hm|apply msg_waiting_ne_choose].
  by case_decide.
Qed.

Lemma phase_after_signed w r s :
  loaded w = true -> phase_of (js_exec (record_receipt r ;; onSigned s) w) = AccountSigned.
Proof.
  intros Hl. rewrite (phase_of_msg _ msg_thanks); [|exact Hl|reflexivity|apply msg_thanks_ne_choose].
  by case_decide.
Qed.

Lemma phase_after_aborted w :
  loaded w = true -> phase_of (js_exec onSignatureAborted w) = AccountUnsigned.
Proof.
  intros Hl.
  rewrite (phase_of_msg _ msg_cannot_join); [|exact Hl|reflexivity|apply msg_cannot_join_ne_choose].
  by case_decide.
Qed.

Lemma phase_quiet_step w w' :
  loaded w = true -> phase_inv w -> quiet w w' ->
  phase_inv w' /\ (phase_of w' = phase_of w \/ code_phase_step (phase_of w) (phase_of w')).
Proof.
  intros Hl Hi Hq. split; [by eapply phase_inv_quiet|]. left.
  destruct Hq as (Hl'&_&_&Hd&_). apply phase_of_same; [done | by rewrite Hd].
Qed.

(** A signature request is pending only outside the account choice. *)
Lemma phase_of_sign_pending w i web3 msg a :
  loaded w = true -> phase_inv w -> pending w !! i = Some (TSign web3 msg a) ->
  account_phase (phase_of w).
Proof.
  intros Hl [_ Hn] Ht. unfold account_phase.
  destruct (phase_of w) eqn:Hp; [| |by left|by right].
  - by apply phase_of_loaded in Hl.
  - pose proof (Forall_lookup_1 _ _ _ _ (Hn eq_refl) Ht) as H. done.
Qed.

Lemma phase_step w e w' :
  phase_inv w -> dispatch w e = Some w' ->
  phase_inv w' /\ (phase_of w' = phase_of w \/ code_phase_step (phase_of w) (phase_of w')).
Proof.
  intros [Hinv Hn] Hd. pose proof (page_inv_step w e w' Hinv Hd) as Hinv'.
  destruct (loaded w) eqn:Hl.
  - destruct e as [| |p accts|i r]; simpl in Hd.
    + by rewrite Hl in Hd.
    + injection Hd as <-. case_match; [|by split; [split|left]].
      apply phase_quiet_step; auto with page. by split.
    + destruct (wallets w !! p) as [wl|]; simpl in Hd; [|done].
      case_match; [done|]. injection Hd as <-.
      apply phase_quiet_step; auto with page. by split.
    + destruct (pending w !! i) as [t|] eqn:Ht; simpl in Hd; [|done].
      destruct (resume t r) as [m|] eqn:Hr; simpl in Hd; [|done]. injection Hd as <-.
      set (w1 := remove_pending i w).
      assert (Hp1 : phase_of w1 = phase_of w) by reflexivity.
      assert (Hn1 : phase_of w1 = AwaitingAccountChoice -> Forall no_sign (pending w1))
        by (rewrite Hp1; intros; by apply Forall_delete, Hn).
      split; [split; [done|]|].
      all: destruct (settle_cases t r m w1 Hr)
        as [Hq|p l -> Heq|p -> -> Heq|web3 msg a s -> -> Heq|web3 msg a -> Heq].
      * destruct Hq as (Hl'&_&_&Hd&_&l&Hpend&Hno).
        rewrite (phase_of_same w1), Hpend; [|done|by rewrite Hd].
        intros Ha. apply Forall_app_2; auto.
      * by rewrite Heq, phase_after_fetch.
      * by rewrite Heq, phase_of_report, phase_after_fetch.
      * by rewrite Heq, phase_after_signed.
      * by rewrite Heq, phase_after_aborted.
      * left. destruct Hq as (Hl'&_&_&Hd&_). rewrite <- Hp1. apply phase_of_same; [done | by rewrite Hd].
      * right. rewrite Heq, phase_after_fetch; [|exact Hl]. constructor. by apply phase_of_loaded.
      * right. rewrite Heq, phase_of_report, phase_after_fetch; [|exact Hl].
        constructor. by apply phase_of_loaded.
      * pose proof (phase_of_sign_pending w i web3 msg a Hl (conj Hinv Hn) Ht) as Hacc.
        right. rewrite Heq, phase_after_signed; [|exact Hl]. by constructor.
      * right. rewrite Heq, phase_after_aborted; [|exact Hl]. constructor. by apply phase_of_loaded.
  - (* before load, only the load event can happen *)
    destruct (page_inv_unloaded w Hinv Hl) as (Hp&Hw&Hsw).
    destruct e as [| |p accts|i r]; simpl in Hd.
    + rewrite Hl in Hd. injection Hd as <-.
      set (w1 := js_exec init (set_loaded w)).
      destruct (quiet_onConnect w1) as (Hl2&_&_&Hd2&_&l&Hpend&Hno).
      rewrite load_handler_exec in Hinv' |- *. fold w1 in Hinv' |- *.
      assert (Hph : phase_of (set_doc dom_set_switch_listener (js_exec onConnect w1)) =
                    AwaitingAccountChoice).
      { unfold phase_of. simpl. rewrite Hl2, Hd2. subst w1. simpl. by repeat case_decide. }
      split; [split; [done|]|]; rewrite Hph.
      * intros _. simpl. rewrite Hpend. subst w1. simpl. rewrite Hp. by apply Forall_app_2.
      * right. unfold phase_of at 1. rewrite Hl. constructor.
    + rewrite Hsw in Hd. injection Hd as <-. by split; [split|left].
    + by rewrite Hw, lookup_empty in Hd.
    + by rewrite Hp in Hd.
Qed.

End Phases.

(** ** The refinement *)

(** The phases the code actually goes through, as a machine. *)
Definition code_phases : machine :=
  mk_machine phase (fun p => p = Uninitialized) code_phase_step.

Section Refines.

Lemma widget_reachable w : reachable w -> m_reachable widget w.
Proof. intros [d Hd]. exists (initial_world d). split; [by exists d | exact Hd]. Qed.

Lemma phase_init w : m_init widget w -> phase_inv w /\ phase_of w = Uninitialized.
Proof. intros [d ->]. split; [split; [apply page_inv_initial | done] | reflexivity]. Qed.

Lemma phase_step_code w w' :
  phase_inv w -> m_step widget w w' ->
  phase_inv w' /\ (phase_of w' = phase_of w \/ m_step code_phases (phase_of w) (phase_of w')).
Proof. intros Hi [e He]. by eapply phase_step. Qed.

Lemma phase_step_spec w w' :
  phase_inv w -> m_step widget w w' ->
  phase_inv w' /\ (phase_of w' = phase_of w \/ m_step widget_spec (phase_of w) (phase_of w')).
Proof.
  intros Hi Hs. destruct (phase_step_code w w' Hi Hs) as [Hi' [Heq|Hc]]; split; auto.
  by apply code_phase_spec in Hc.
Qed.

(** C15: the page refines the spec's machine step by step.  On every
    reachable page, every event either leaves the phase the page shows
    unchanged or moves it along a transition of the spec's machine
    (section 4.1): the status never jumps from the account choice to
    "Thank you!", never returns to a page that is not loaded, and signs
    only after an account was selected. *)
Theorem widget_refines_spec w w' :
  reachable w -> step w w' ->
  phase_of w' = phase_of w \/ spec_step (phase_of w) (phase_of w').
Proof.
  intros Hr Hs.
  destruct (refine_reachable widget code_phases phase_of phase_inv
              (fun s Hs => phase_init s Hs) phase_step_code w (widget_reachable w Hr)) as [Hi _].
  by destruct (phase_step_spec w w' Hi Hs) as [_ ?].
Qed.

Lemma widget_refines_spec_witness :
  phase_of (sample_run [EvLoad]) = phase_of (initial_world sample_page) \/
  spec_step (phase_of (initial_world sample_page)) (phase_of (sample_run [EvLoad])).
Proof.
  apply widget_refines_spec.
  - exists sample_page. apply star_refl.
  - exists EvLoad. vm_compute. reflexivity.
Defined.

(** C16: once an account is selected, the page never shows the account
    choice again.  Neither a switch of account nor an account change
    brings back "Please choose an account to proceed." that the spec's
    loop back to AwaitingAccountChoice describes. *)
Theorem account_phase_stays w w' :
  reachable w -> star step w w' -> account_phase (phase_of w) -> account_phase (phase_of w').
Proof.
  intros Hr Hs Ha.
  destruct (refine_reachable widget code_phases phase_of phase_inv
              (fun s Hs => phase_init s Hs) phase_step_code w (widget_reachable w Hr)) as [Hi _].
  destruct (refine_star widget code_phases phase_of phase_inv phase_step_code w w' Hi Hs)
    as [_ Hc].
  revert Ha. apply (star_invariant code_phase_step account_phase); [|exact Hc].
  intros a b Hab Hst. by eapply code_phase_account.
Qed.

(** After the happy path the page is signed; a click on the switch link and
    the provider's [close()] and [clearCachedProvider()] leave it signed. *)
Definition switch_trace : list event :=
  [EvClickSwitch; EvSettle 0 (Fulfilled VUndefined); EvSettle 0 (Fulfilled VUndefined)].

Lemma account_phase_stays_witness :
  account_phase (phase_of (default (sample_run happy_trace)
                                   (run (sample_run happy_trace) switch_trace))).
Proof.
  apply (account_phase_stays (sample_run happy_trace)).
  - apply (run_reachable sample_page happy_trace). vm_compute. reflexivity.
  - apply (run_star _ switch_trace). vm_compute. reflexivity.
  - right. vm_compute. reflexivity.
Defined.

End Refines.
