(* ===== verification/Providers.v ===== *)
(** * Provider objects

    The provider objects the dialog handed out ([wallets], keyed by object
    identity) and the one the script holds ([provider]).  [grows S w w']
    says that every object of [w] is still known in [w'], keeps its
    [close] method, stays closed once closed and loses no "accountsChanged"
    listener, and that only the objects in [S] went from open to closed.
    Every operation of Flow.v is such a step with [S] empty, except
    onConnect, which closes only the held provider and only when it has
    [close()] (lines 95-97).  The provider variable is only ever kept,
    cleared (line 101) or set by the dialog's answer (line 107), which
    also subscribes to "accountsChanged" (line 114).  Hence the held
    provider always carries a listener (C18), and only a click on the
    switch link closes a provider object (C19). *)

From S2P Require Import Spec2Rocq Js Page Flow EventLoop Invariants.
From stdpp Require Import base tactics list gmap strings.

Definition wallet_le (wl wl' : wallet) : Prop :=
  has_close wl' = has_close wl /\ (closed wl = true -> closed wl' = true) /\
  listeners wl <= listeners wl'.

Definition grows (S : nat -> Prop) (w w' : world) : Prop :=
  forall id wl, wallets w !! id = Some wl ->
  exists wl', wallets w' !! id = Some wl' /\ wallet_le wl wl' /\
              (closed wl = false -> closed wl' = true -> S id).

(** The provider objects onConnect may close on page [w]: the held one,
    if it has [close]. *)
Definition closable (w : world) (id : nat) : Prop :=
  provider w = Some id /\ exists wl, wallets w !! id = Some wl /\ has_close wl = true.

(** The held provider is an object the dialog handed out, with a listener. *)
Definition subscribed (w : world) (id : nat) : Prop :=
  exists wl, wallets w !! id = Some wl /\ 1 <= listeners wl.

Definition held_ok (w : world) : Prop :=
  forall id, provider w = Some id -> subscribed w id.

(** A step that touches neither the provider objects nor the variable. *)
Definition untouched (w w' : world) : Prop :=
  wallets w' = wallets w /\ provider w' = provider w.

Section Grows.

Lemma wallet_le_refl wl : wallet_le wl wl.
Proof. repeat split; auto. Qed.

Lemma grows_same S w w' : wallets w' = wallets w -> grows S w w'.
Proof.
  intros Hw id wl H. exists wl. rewrite Hw. split; [done|].
  split; [apply wallet_le_refl | congruence].
Qed.

Lemma grows_trans S w1 w2 w3 : grows S w1 w2 -> grows S w2 w3 -> grows S w1 w3.
Proof.
  intros H12 H23 id wl H1.
  destruct (H12 id wl H1) as (wl2&H2&(Hc2&Hk2&Hn2)&Hs2).
  destruct (H23 id wl2 H2) as (wl3&H3&(Hc3&Hk3&Hn3)&Hs3).
  exists wl3. split; [done|]. split; [split; [congruence | split; [auto | lia]]|].
  intros Ho Hc. destruct (closed wl2) eqn:E; [by apply Hs2 | by apply Hs3].
Qed.

Lemma grows_weaken (S S' : nat -> Prop) w w' :
  (forall id, S id -> S' id) -> grows S w w' -> grows S' w w'.
Proof.
  intros HS Hg id wl H. destruct (Hg id wl H) as (wl'&?&?&Hs). exists wl'. eauto.
Qed.

(** [alter f p] on the objects, for an [f] that only closes or subscribes. *)
Lemma grows_alter S f p w w' :
  wallets w' = alter f p (wallets w) ->
  (forall wl, wallet_le wl (f wl)) ->
  (forall wl, wallets w !! p = Some wl -> closed wl = false -> closed (f wl) = true -> S p) ->
  grows S w w'.
Proof.
  intros Hw' Hf Hs id wl H. rewrite Hw'. destruct (decide (id = p)) as [->|Hne].
  - exists (f wl). rewrite lookup_alter, decide_True, H by done. split; [done|].
    split; [apply Hf|]. eauto.
  - exists wl. rewrite lookup_alter, decide_False by congruence. split; [done|].
    split; [apply wallet_le_refl | congruence].
Qed.

(** The dialog's answer [p] is recorded if new (receiveProvider). *)
Lemma grows_receive S p hc w w' :
  wallets w' = match wallets w !! p with
               | Some _ => wallets w | None => <[p := mk_wallet hc false 0]> (wallets w) end ->
  grows S w w'.
Proof.
  intros Hw' id wl H. rewrite Hw'. exists wl.
  destruct (wallets w !! p) eqn:Hp.
  - split; [done|]. split; [apply wallet_le_refl | congruence].
  - rewrite lookup_insert_ne by congruence. split; [done|].
    split; [apply wallet_le_refl | congruence].
Qed.

Lemma untouched_grows S w w' : untouched w w' -> grows S w w'.
Proof. intros [Hw _]. by apply grows_same. Qed.

Lemma held_ok_frame S w w' :
  held_ok w -> grows S w w' -> provider w' = provider w \/ provider w' = None -> held_ok w'.
Proof.
  intros Hh Hg [Hp|Hp] id Hid; [|congruence]. rewrite Hp in Hid.
  destruct (Hh id Hid) as (wl&Hwl&Hl).
  destruct (Hg id wl Hwl) as (wl'&Hwl'&(_&_&Hle)&_). exists wl'. split; [done | lia].
Qed.

(** Reporting an unhandled error leaves the objects alone. *)
Lemma objects_detached m w :
  wallets (js_exec (detached m) w) = wallets (js_exec m w) /\
  provider (js_exec (detached m) w) = provider (js_exec m w).
Proof. unfold detached, js_async, js_exec. by destruct (m w) as [w' [?|e]]. Qed.

End Grows.

(** ** What each operation does to the provider objects *)
Section Operations.

(** onConnect up to its first await closes at most the held provider,
    and only if it has [close] (lines 95-97). *)
Lemma onConnect_objects w :
  grows (closable w) w (js_exec onConnect w) /\ provider (js_exec onConnect w) = provider w.
Proof.
  unfold onConnect, providerHasClose, openDialog, closeProvider, suspend. js_unfold.
  destruct (provider w) as [id|] eqn:Hp;
    [destruct (wallets w !! id) as [[[] c n]|] eqn:Hid|];
    simpl; try destruct (web3Modal w); split; try done; try by apply grows_same.
  all: eapply grows_alter; [reflexivity | by intros [] | ].
  all: intros wl Hwl _ _; split; [done|]; by exists (mk_wallet true c n).
Qed.

(** The dialog's answer: the object is recorded, held and subscribed
    (lines 107-116). *)
Lemma connected_objects id hc w :
  let w' := js_exec (onConnect_connected id hc) w in
  grows (fun _ => False) w w' /\ provider w' = Some id /\ subscribed w' id.
Proof.
  unfold onConnect_connected, receiveProvider, subscribeAccountsChanged,
    fetchAccountData, suspend. js_unfold.
  set (ws1 := match wallets w !! id with
              | Some _ => wallets w | None => <[id := mk_wallet hc false 0]> (wallets w) end).
  split; [|split; [done|]].
  - apply (grows_trans _ w (set_wallets (fun _ => ws1) w)); [by apply (grows_receive _ id hc)|].
    eapply grows_alter; [reflexivity | intros []; split; [done | split; [done | simpl; lia]] |].
    intros wl _ Ho Hc. simpl in Hc. congruence.
  - unfold subscribed. simpl. rewrite lookup_alter, decide_True by done.
    subst ws1. destruct (wallets w !! id) as [wl|] eqn:Hid;
      [rewrite Hid | rewrite lookup_insert_eq]; eexists; (split; [reflexivity | simpl; lia]).
Qed.

(** The code after every other await touches neither the objects nor the
    variable, except that clearing the cached provider drops it (line 101). *)
Lemma resume_objects t r m w :
  resume t r = Some m ->
  untouched w (js_exec m w) \/
  (wallets (js_exec m w) = wallets w /\ provider (js_exec m w) = None) \/
  exists id hc, m = onConnect_connected id hc.
Proof.
  intros Hr.
  destruct t as [p| | |[p|]|web3 msg a], r as [[|id hc|[|x l]|s]|];
    simpl in Hr; simplify_eq;
    try match goal with
        | |- _ \/ _ \/ exists _ _, onConnect_connected ?i ?h = _ => right; right; by exists i, h
        end;
    flow_unfold; repeat case_match; first [left; by split | right; left; by split].
Qed.

Lemma listeners_objects w n accounts :
  untouched w (js_exec (js_repeat n (accountsChangedListener accounts)) w).
Proof.
  apply (js_repeat_preserves (untouched w)); [|done].
  intros s [Hw Hp]. split; [|apply js_async_ok]. split; simpl; congruence.
Qed.

End Operations.

(** ** One event *)
Section Steps.

(** Which objects an event may close, and what becomes of the variable:
    only the load handler's or a click's onConnect closes, and only a
    closable object; the variable is kept, cleared, or set to a
    subscribed object. *)
Lemma dispatch_objects w e w' :
  dispatch w e = Some w' ->
  grows (fun id => (e = EvLoad \/ e = EvClickSwitch) /\ closable w id) w w' /\
  (provider w' = provider w \/ provider w' = None \/
   exists id, provider w' = Some id /\ subscribed w' id).
Proof.
  intros Hd. destruct e as [| |p accts|i r]; simpl in Hd.
  - destruct (loaded w); [done|]. injection Hd as <-. rewrite load_handler_exec.
    destruct (onConnect_objects (js_exec init (set_loaded w))) as [Hg Hp].
    split; [|left; exact Hp].
    eapply grows_weaken; [|exact Hg]. intros id Hc. split; [by left | exact Hc].
  - injection Hd as <-. destruct (switch_listener (doc w)); [|split; [by apply grows_same | by left]].
    unfold detached. rewrite (js_exec_async_ok _ _ _ (onConnect_no_throw w)).
    destruct (onConnect_objects w) as [Hg Hp]. split; [|by left].
    eapply grows_weaken; [|exact Hg]. intros id Hc. split; [by right | exact Hc].
  - destruct (wallets w !! p) as [wl|]; simpl in Hd; [|done].
    destruct (closed wl); [done|]. injection Hd as <-.
    destruct (listeners_objects w (listeners wl) accts) as [Hw Hp].
    split; [by apply grows_same | by left].
  - destruct (pending w !! i) as [t|]; simpl in Hd; [|done].
    destruct (resume t r) as [m|] eqn:Hr; simpl in Hd; [|done]. injection Hd as <-.
    set (w1 := remove_pending i w).
    destruct (objects_detached m w1) as [Hw Hp].
    destruct (resume_objects t r m w1 Hr) as [[Hw1 Hp1]|[[Hw1 Hp1]|(id&hc&->)]].
    + split; [apply grows_same; by rewrite Hw | left; by rewrite Hp].
    + split; [apply grows_same; by rewrite Hw | right; left; by rewrite Hp].
    + destruct (connected_objects id hc w1) as (Hg&Hid&Hs).
      split; [apply grows_weaken with (fun _ => False); [done|]; unfold grows; rewrite Hw; exact Hg|].
      right; right. exists id. unfold subscribed. rewrite Hp, Hw. split; [exact Hid | exact Hs].
Qed.

Lemma held_step w e w' : held_ok w -> dispatch w e = Some w' -> held_ok w'.
Proof.
  intros Hh Hd. destruct (dispatch_objects w e w' Hd) as [Hg [Hp|[Hp|(id&Hp&Hs)]]].
  - eapply held_ok_frame; [exact Hh | exact Hg | by left].
  - eapply held_ok_frame; [exact Hh | exact Hg | by right].
  - intros id' Hid'. rewrite Hp in Hid'. by injection Hid' as <-.
Qed.

Lemma reachable_held w : reachable w -> held_ok w.
Proof.
  apply reachable_ind; [intros d id Hid; discriminate|].
  intros w0 e w1 Hh Hd. by eapply held_step.
Qed.

End Steps.

(** ** The properties *)

(** C18: on every reachable page, the provider the script holds is a
    provider object the dialog handed out, and the script has registered
    an "accountsChanged" listener on it (line 114): no provider is held
    without the subscription of onConnect. *)
Theorem held_provider_subscribed w id :
  reachable w -> provider w = Some id ->
  exists wl, wallets w !! id = Some wl /\ 1 <= listeners wl.
Proof. intros Hr. exact (reachable_held w Hr id). Qed.

Lemma held_provider_subscribed_witness :
  exists wl, wallets (sample_run happy_trace) !! 1 = Some wl /\ 1 <= listeners wl.
Proof.
  apply held_provider_subscribed; [|vm_compute; reflexivity].
  apply (run_reachable sample_page happy_trace). vm_compute. reflexivity.
Defined.

(** C19: on a reachable page, an event that closes a provider object is a
    click on the switch link, and the object it closes is the held
    provider, which has a [close] method (lines 95-97): no settlement, no
    account change and not the load handler ever closes a provider, and
    an injected provider without [close] is never closed. *)
Theorem only_switch_closes w e w' id wl wl' :
  reachable w -> dispatch w e = Some w' ->
  wallets w !! id = Some wl -> wallets w' !! id = Some wl' ->
  closed wl = false -> closed wl' = true ->
  e = EvClickSwitch /\ provider w = Some id /\ has_close wl = true.
Proof.
  intros Hr Hd Hw Hw' Ho Hc.
  destruct (dispatch_objects w e w' Hd) as [Hg _].
  destruct (Hg id wl Hw) as (wl2&Hw2&_&Hs). rewrite Hw' in Hw2. injection Hw2 as <-.
  destruct (Hs Ho Hc) as [[->| ->] (Hp&wl0&Hw0&Hhc)].
  - (* the load handler runs on an unloaded page, which knows no object *)
    exfalso. simpl in Hd. destruct (loaded w) eqn:Hl; [done|].
    destruct (page_inv_unloaded w (reachable_page_inv w Hr) Hl) as (_&Hempty&_).
    by rewrite Hempty, lookup_empty in Hw.
  - rewrite Hw in Hw0. injection Hw0 as <-. by repeat split.
Qed.

Lemma only_switch_closes_witness :
  EvClickSwitch = EvClickSwitch /\ provider (sample_run happy_trace) = Some 1 /\
  has_close (mk_wallet true false 1) = true.
Proof.
  apply (only_switch_closes (sample_run happy_trace) EvClickSwitch
           (sample_run (happy_trace ++ [EvClickSwitch])) 1
           (mk_wallet true false 1) (mk_wallet true true 1)).
  - apply (run_reachable sample_page happy_trace). vm_compute. reflexivity.
  - vm_compute. reflexivity.
  - vm_compute. reflexivity.
  - vm_compute. reflexivity.
  - reflexivity.
  - reflexivity.
Defined.
